(** * Frogmouth: forge URL resolution, GitHub star import and the star store

    A shallow embedding of [frogmouth/utility/forge.py] and
    [frogmouth/data/github_stars.py].

    - Python [str] is [string]; [None]-able arguments are [option]s and
      Python truthiness ([x or d], [if x], [while x]) is written out.
    - A call either returns or raises: [result] carries the exception.  The
      [while] loop of the star importer follows links handed out by the
      server, so it is run with a step budget; [Unfinished] is a call that
      has not returned.
    - The network is a stub server: a function from the requested URL to
      what [httpx] answers.  Every function that talks to the network also
      returns the list of URLs it requested, in request order. *)

From Stdlib Require Import ZArith String Ascii Lia.
From stdpp Require Import base strings list gmap.

Open Scope Z_scope.

Set Warnings "-register-all".

(** ** Exceptions and results *)

Inductive exn : Type :=
| TypeError
| ValueError
| KeyError (key : string)
| IndexError
| InvalidURL.

Inductive result (A : Type) : Type :=
| Return (a : A)
| Raise (e : exn)
| Unfinished.

Arguments Return {A} a.
Arguments Raise {A} e.
Arguments Unfinished {A}.

Definition result_bind {A B : Type} (f : A → result B) (r : result A) : result B :=
  match r with
  | Return a => f a
  | Raise e => Raise e
  | Unfinished => Unfinished
  end.

#[global] Instance result_mbind : MBind result := @result_bind.
#[global] Instance result_mret : MRet result := @Return.

(** Python truthiness of an optional string: [None] and the empty string are falsy. *)
Definition truthy (s : option string) : bool :=
  match s with
  | Some (String _ _) => true
  | _ => false
  end.

(** [x or d] for an optional string [x]. *)
Definition or_else (x : option string) (d : string) : string :=
  match x with
  | Some (String c s) => String c s
  | _ => d
  end.

(** ** [str.format] with keyword arguments

    The fragment the templates of [forge.py] use: literal text, the escapes
    [{{] and [}}], and replacement fields that are a plain keyword name.
    Conversion flags, format specifications and attribute or index lookups
    inside a field are not part of this fragment (such a field is looked up
    by its whole text). *)

Fixpoint kwarg (kwargs : list (string * string)) (name : string) : option string :=
  match kwargs with
  | [] => None
  | (k, v) :: rest => if String.eqb k name then Some v else kwarg rest name
  end.

Definition prepend (c : ascii) (r : result string) : result string :=
  s ← r; mret (String c s).

(** [field] is [None] while scanning literal text and [Some name] inside a
    replacement field whose name read so far is [name]. *)
Fixpoint format_scan (kwargs : list (string * string)) (s : string)
    (field : option string) : result string :=
  match s, field with
  | EmptyString, None => Return EmptyString
  | EmptyString, Some _ => Raise ValueError
  | String c s', None =>
      if Ascii.eqb c "{" then
        match s' with
        | String "{" s'' => prepend "{" (format_scan kwargs s'' None)
        | _ => format_scan kwargs s' (Some EmptyString)
        end
      else if Ascii.eqb c "}" then
        match s' with
        | String "}" s'' => prepend "}" (format_scan kwargs s'' None)
        | _ => Raise ValueError
        end
      else prepend c (format_scan kwargs s' None)
  | String c s', Some name =>
      if Ascii.eqb c "}" then
        match name with
        | EmptyString => Raise IndexError
        | _ =>
            match kwarg kwargs name with
            | Some v => rest ← format_scan kwargs s' None; mret (v +:+ rest)
            | None => Raise (KeyError name)
            end
        end
      else format_scan kwargs s' (Some (name +:+ String c EmptyString))
  end.

Definition str_format (template : string) (kwargs : list (string * string))
    : result string :=
  format_scan kwargs template None.

(** ** The raw URL resolver ([forge.py], [build_raw_forge_url]) *)

(** What [client.head(url, follow_redirects=True, ...)] does: it returns a
    response with a status code, it raises [httpx.RequestError], or it raises
    an exception that is not a [RequestError] ([httpx.InvalidURL] for text
    it cannot read as a URL), which the resolver does not catch. *)
Inductive probe : Type :=
| Response (status_code : Z)
| RequestError
| Uncaught (e : exn).

(** [response.raise_for_status()] returns for the 2xx codes and raises
    [HTTPStatusError] for every other one. *)
Definition is_success (status_code : Z) : bool :=
  (200 <=? status_code) && (status_code <=? 299).

Definition URL : Type := string.

(** [(branch,) if branch else ("main", "master")] *)
Definition test_branches (branch : option string) : list string :=
  match branch with
  | Some (String c s) => [String c s]
  | _ => ["main"; "master"]
  end.

(** [url_format.format(owner=..., repository=..., branch=..., file=...)] *)
Definition format_url (url_format owner repository test_branch file : string)
    : result string :=
  str_format url_format
    [("owner", owner); ("repository", repository);
     ("branch", test_branch); ("file", file)].

Section Resolver.
(** The server behind [client.head]. *)
Variable client_head : string → probe.

(** The [for test_branch in ...] loop.  The second component is the list
    of URLs [client.head] was called with, in order. *)
Fixpoint probe_branches (url_format owner repository desired_file : string)
    (branches : list string) : result (option URL) * list string :=
  match branches with
  | [] => (Return None, [])
  | test_branch :: rest =>
      match format_url url_format owner repository test_branch desired_file with
      | Return url =>
          match client_head url with
          | RequestError => (Return None, [url])
          | Uncaught e => (Raise e, [url])
          | Response status_code =>
              if is_success status_code then (Return (Some url), [url])
              else
                let '(r, requests) :=
                  probe_branches url_format owner repository desired_file rest in
                (r, url :: requests)
          end
      | Raise e => (Raise e, [])
      | Unfinished => (Unfinished, [])
      end
  end.

Definition build_raw_forge_url (url_format owner repository : string)
    (branch desired_file : option string) : result (option URL) * list string :=
  let desired_file := or_else desired_file "README.md" in
  probe_branches url_format owner repository desired_file (test_branches branch).

Definition build_raw_github_url (owner repository : string)
    (branch desired_file : option string) :=
  build_raw_forge_url
    "https://raw.githubusercontent.com/{owner}/{repository}/{branch}/{file}"
    owner repository branch desired_file.

Definition build_raw_gitlab_url (owner repository : string)
    (branch desired_file : option string) :=
  build_raw_forge_url
    "https://gitlab.com/{owner}/{repository}/-/raw/{branch}/{file}"
    owner repository branch desired_file.

Definition build_raw_bitbucket_url (owner repository : string)
    (branch desired_file : option string) :=
  build_raw_forge_url
    "https://bitbucket.org/{owner}/{repository}/raw/{branch}/{file}"
    owner repository branch desired_file.

Definition build_raw_codeberg_url (owner repository : string)
    (branch desired_file : option string) :=
  build_raw_forge_url
    "https://codeberg.org/{owner}/{repository}/raw//branch/{branch}/{file}"
    owner repository branch desired_file.
End Resolver.

(** ** The star importer ([forge.py], [_import_github_repo_details]) *)

(** A naive [datetime]. *)
Record datetime : Type := mk_datetime {
  year : Z; month : Z; day : Z; hour : Z; minute : Z; second : Z
}.

(** One element of the JSON array of a page of the starred feed, with the
    three values the importer reads from it: [repo_info["repo"]["owner"]["login"]],
    [repo_info["repo"]["name"]] and [repo_info["starred_at"]]. *)
Record repo_info : Type := mk_repo_info {
  owner_login : string;
  name : string;
  starred_at_text : string
}.

(** A response to [client.get]: its status code, the URL of
    [response.links["next"]] when the response has one, and its JSON body. *)
Record page : Type := mk_page {
  page_status : Z;
  links_next : option string;
  stars_response : list repo_info
}.

(** What [client.get(url, ...)] does: it returns a response or raises
    [httpx.RequestError]. *)
Inductive fetch : Type :=
| Fetched (p : page)
| FetchError.

(** The dictionary appended to [repo_details]. *)
Record details : Type := mk_details {
  owner : string;
  repo_name : string;
  starred_at : datetime
}.

(** [total_repos is not None and len(repo_details) >= total_repos] *)
Definition limit_reached (total_repos : option Z) (repo_details : list details) : bool :=
  match total_repos with
  | Some n => n <=? Z.of_nat (length repo_details)
  | None => false
  end.

Section Importer.
(** The server behind [client.get]. *)
Variable client_get : string → fetch.
(** [datetime.strptime(_, "%Y-%m-%dT%H:%M:%SZ")]; [None] stands for the
    [ValueError] it raises on text that does not match. *)
Variable strptime : string → option datetime.

(** The [for repo_info in stars_response] loop, started with the list
    accumulated so far; it returns the list as it is when the loop is
    left, by exhaustion or by [break]. *)
Fixpoint collect_page (total_repos : option Z) (stars : list repo_info)
    (repo_details : list details) : result (list details) :=
  match stars with
  | [] => Return repo_details
  | repo_info :: rest =>
      match strptime (starred_at_text repo_info) with
      | None => Raise ValueError
      | Some timestamp =>
          let repo_details :=
            repo_details ++
              [mk_details (owner_login repo_info) (name repo_info) timestamp] in
          if limit_reached total_repos repo_details then Return repo_details
          else collect_page total_repos rest repo_details
      end
  end.

(** The [while next_page_of_results] loop.  The second component is the
    list of URLs sent to [client.get], in order. *)
Fixpoint fetch_pages (fuel : nat) (total_repos : option Z)
    (next_page_of_results : option string) (repo_details : list details)
    : result (option (list details)) * list string :=
  match next_page_of_results with
  | Some (String c s) =>
      let url := String c s in
      match fuel with
      | O => (Unfinished, [])
      | S fuel =>
          match client_get url with
          | FetchError => (Return None, [url])
          | Fetched response =>
              let next_page_of_results := links_next response in
              if negb (is_success (page_status response)) then (Return None, [url])
              else
                match collect_page total_repos (stars_response response) repo_details with
                | Return repo_details =>
                    if limit_reached total_repos repo_details
                    then (Return (Some repo_details), [url])
                    else
                      let '(r, requests) :=
                        fetch_pages fuel total_repos next_page_of_results repo_details in
                      (r, url :: requests)
                | Raise e => (Raise e, [url])
                | Unfinished => (Unfinished, [url])
                end
          end
      end
  | _ => (Return (Some repo_details), [])
  end.

Definition starred_url (username : string) : string :=
  "https://api.github.com/users/" +:+ username +:+ "/starred".

Definition _import_github_repo_details (fuel : nat) (username : string)
    (total_repos : option Z) : result (option (list details)) * list string :=
  fetch_pages fuel total_repos (Some (starred_url username)) [].
End Importer.

(** ** Orchestration ([forge.py], [import_github_stars]) *)

(** [asyncio.gather] on the list of tasks: the tasks complete one after the
    other in some order; the value of a task is stored in the slot of its
    position among the arguments, the exception of a task that raises is raised to the
    awaiter at once, and the list of slots is the value once every slot is
    filled.  [completion] lists the positions in the order in which the
    tasks complete; [tasks] gives what each task ends with. *)
Fixpoint fill_slots {A : Type} (tasks : list (result A)) (completion : list nat)
    (slots : list (option A)) : result (list (option A)) :=
  match completion with
  | [] => Return slots
  | i :: rest =>
      match tasks !! i with
      | Some (Return a) => fill_slots tasks rest (<[i := Some a]> slots)
      | Some (Raise e) => Raise e
      | Some Unfinished => Unfinished
      | None => fill_slots tasks rest slots
      end
  end.

Definition gather {A : Type} (tasks : list (result A)) (completion : list nat)
    : result (list A) :=
  slots ← fill_slots tasks completion (replicate (length tasks) None);
  match mapM id slots with
  | Some values => Return values
  | None => Unfinished
  end.

Section Orchestration.
Variable client_get : string → fetch.
Variable strptime : string → option datetime.
Variable client_head : string → probe.

Definition import_github_stars (fuel : nat) (completion : list nat)
    (username : string) (total_repos : option Z) : result (list (option URL)) :=
  repo_details ←
    (_import_github_repo_details client_get strptime fuel username total_repos).1;
  match repo_details with
  | Some repo_details =>
      let build_tasks :=
        (λ repo,
          (build_raw_github_url client_head (owner repo) (repo_name repo) None None).1)
          <$> repo_details in
      gather build_tasks completion
  | None => Raise TypeError
  end.
End Orchestration.

(** ** The star store ([github_stars.py]) *)

(** A POSIX [pathlib] path, as the list of its parts; the first part of an
    absolute path is its root, "/" or "//", and the path of no parts is the
    current directory. *)
Definition Path : Type := list string.

(** [p / child] for a relative [child] of one part. *)
Definition path_div (p : Path) (child : string) : Path := p ++ [child].

(** [str(p)] *)
Definition path_str (p : Path) : string :=
  match p with
  | [] => "."
  | root :: parts =>
      if String.eqb root "/" || String.eqb root "//"
      then root +:+ String.concat "/" parts
      else String.concat "/" p
  end.

Inductive json : Type :=
| JString (s : string)
| JArray (items : list json).

(** The Python values a star holds: a value of a JSON type (a string, or a
    list as [json.loads] builds it), a [Path], an [httpx.URL] or a
    [datetime].  [URLObj u] is the object [URL(u)], built from the text
    [u]. *)
Inductive pyobj : Type :=
| FromJson (j : json)
| PathObj (p : Path)
| URLObj (u : string)
| DatetimeObj (d : datetime).

(** The named tuple; its fields are not checked at run time. *)
Record GitHubStar : Type := mk_GitHubStar {
  title : pyobj;
  location : pyobj;
  date_starred : pyobj
}.

(** Binding the arguments of a call to a function that has one required
    positional parameter: a call with any other number of arguments raises
    [TypeError]. *)
Definition call {A B : Type} (f : A → B) (args : list A) : result B :=
  match args with
  | [a] => Return (f a)
  | _ => Raise TypeError
  end.

(** What the store uses of [httpx.URL]: whether [URL(text)] returns (it
    raises [httpx.InvalidURL] otherwise), and the text [str(URL(text))],
    which is [text] with the escaping and the normalisation of [httpx]
    applied. *)
Class HttpxURL : Type := {
  url_valid : string → bool;
  url_str : string → string
}.

Module GithubStarEncoder.
(** [str(o) if isinstance(o, (Path, URL)) else o] *)
Definition default `{HttpxURL} (o : pyobj) : pyobj :=
  match o with
  | PathObj p => FromJson (JString (path_str p))
  | URLObj u => FromJson (JString (url_str u))
  | _ => o
  end.
End GithubStarEncoder.

Section Rows.
Context `{HttpxURL}.

(** [json.JSONEncoder] on one value: a value of a JSON type is encoded as it
    is; any other object is replaced by what [default] returns for it, and
    an object that [default] hands back as it is makes the encoder raise
    [ValueError] (circular reference). *)
Definition encode (o : pyobj) : result json :=
  match o with
  | FromJson j => Return j
  | _ =>
      match GithubStarEncoder.default o with
      | FromJson j => Return j
      | _ => Raise ValueError
      end
  end.

(** A named tuple is encoded as the array of its fields. *)
Definition encode_star (b : GitHubStar) : result json :=
  t ← encode (title b);
  l ← encode (location b);
  d ← encode (date_starred b);
  mret (JArray [t; l; d]).

Fixpoint encode_stars (bookmarks : list GitHubStar) : result (list json) :=
  match bookmarks with
  | [] => Return []
  | b :: rest =>
      row ← encode_star b;
      rows ← encode_stars rest;
      mret (row :: rows)
  end.

(** Iterating over a loaded JSON value: the items of an array, the
    characters of a string. *)
Definition iterate (j : json) : list json :=
  match j with
  | JArray items => items
  | JString s => (λ c, JString (String c EmptyString)) <$> list_ascii_of_string s
  end.

(** [URL(location)] takes a string, and raises on text that it cannot read
    as a URL. *)
Definition make_URL (location : json) : result pyobj :=
  match location with
  | JString s => if url_valid s then Return (URLObj s) else Raise InvalidURL
  | JArray _ => Raise TypeError
  end.

(** One turn of the comprehension of [load_bookmarks]:
    [(title, location, date_starred)] is unpacked from the row. *)
Definition load_star (row : json) : result GitHubStar :=
  match iterate row with
  | [title; location; date_starred] =>
      location ← make_URL location;
      mret (mk_GitHubStar (FromJson title) location (FromJson date_starred))
  | _ => Raise ValueError
  end.

Fixpoint load_stars (rows : list json) : result (list GitHubStar) :=
  match rows with
  | [] => Return []
  | row :: rest =>
      b ← load_star row;
      bs ← load_stars rest;
      mret (b :: bs)
  end.
End Rows.

Section Store.
Context `{HttpxURL}.
(** [data_directory()], of [frogmouth/data/data_directory.py]. *)
Variable data_directory : Path.
(** The text [json.dumps(_, indent=4)] writes for a JSON value, and
    [json.loads]; [None] stands for the [ValueError] it raises on text
    that is not JSON. *)
Variable json_text : json → string.
Variable json_parse : string → option json.

Definition github_stars_file (username : string) : Path :=
  path_div data_directory "{username}_github_stars.json".

Definition dumps (bookmarks : list GitHubStar) : result string :=
  rows ← encode_stars bookmarks;
  mret (json_text (JArray rows)).

Definition loads (text : string) : result json :=
  match json_parse text with
  | Some j => Return j
  | None => Raise ValueError
  end.

(** The file system maps the path of a file to its text.
    [github_stars_file().write_text(dumps(...))]: the call that yields
    the path is evaluated before the argument of [write_text]. *)
Definition save_bookmarks (bookmarks : list GitHubStar) (fs : gmap Path string)
    : result (gmap Path string) :=
  path ← call github_stars_file [];
  text ← dumps bookmarks;
  mret (<[path := text]> fs).

Definition load_bookmarks (fs : gmap Path string) : result (list GitHubStar) :=
  github_stars ← call github_stars_file [];
  match fs !! github_stars with
  | Some text =>
      doc ← loads text;
      load_stars (iterate doc)
  | None => mret []
  end.
End Store.

(** ** Vocabulary of the statements *)

(** The three outcomes of a probe that the resolver handles. *)
Definition accepts (client_head : string → probe) (url : string) : bool :=
  match client_head url with
  | Response status_code => is_success status_code
  | _ => false
  end.

Definition rejects (client_head : string → probe) (url : string) : bool :=
  match client_head url with
  | Response status_code => negb (is_success status_code)
  | _ => false
  end.

Definition unreachable (client_head : string → probe) (url : string) : bool :=
  match client_head url with
  | RequestError => true
  | _ => false
  end.

(** The URLs of the candidate branches, in order. *)
Definition candidate_urls (url_format owner repository : string)
    (branch desired_file : option string) (urls : list string) : Prop :=
  Forall2
    (λ test_branch url,
      format_url url_format owner repository test_branch
        (or_else desired_file "README.md") = Return url)
    (test_branches branch) urls.

(** The candidate branches read off the words of the specification: a branch
    that is given is the only candidate. *)
Definition given_branch_candidates (branch : option string) : list string :=
  match branch with
  | Some b => [b]
  | None => ["main"; "master"]
  end.

(** A page fetch that fails: [client.get] raises, or the response has a
    status for which [raise_for_status] raises. *)
Definition fetch_failed (f : fetch) : bool :=
  match f with
  | Fetched p => negb (is_success (page_status p))
  | FetchError => true
  end.

(** [pages] are the responses met by following the links from [url], each
    of them a success. *)
Fixpoint feed_prefix (client_get : string → fetch) (url : option string)
    (pages : list page) : Prop :=
  match pages with
  | [] => True
  | p :: rest =>
      truthy url = true
      ∧ (∃ u, url = Some u ∧ client_get u = Fetched p)
      ∧ is_success (page_status p) = true
      ∧ feed_prefix client_get (links_next p) rest
  end.

Definition parses (strptime : string → option datetime) (r : repo_info) : Prop :=
  is_Some (strptime (starred_at_text r)).

(** No limit, or fewer than [total_repos] items. *)
Definition below_limit (total_repos : option Z) (n : nat) : Prop :=
  match total_repos with
  | Some limit => Z.of_nat n < limit
  | None => True
  end.

(** ** Stubs for the examples *)

(** A server on which exactly the URLs of [existing] answer 200 and every
    other URL answers 404. *)
Definition serves (existing : list string) (url : string) : probe :=
  if existsb (String.eqb url) existing then Response 200 else Response 404.

(** A server that cannot be reached. *)
Definition offline (url : string) : probe := RequestError.

(** The characters [httpx] refuses in the text of a URL: the ASCII control
    characters. *)
Definition control_character (c : ascii) : bool :=
  let n := nat_of_ascii c in (n <? 32)%nat || (n =? 127)%nat.

Definition has_control_character (s : string) : bool :=
  existsb control_character (list_ascii_of_string s).

(** The same server behind a client that refuses a URL with a control
    character in it, as [httpx] does. *)
Definition checked (server : string → probe) (url : string) : probe :=
  if has_control_character url then Uncaught InvalidURL else server url.

(** [httpx.URL] on the texts of the examples: text with a control character
    is refused, and text in which nothing needs escaping is kept. *)
Definition plain_urls : HttpxURL :=
  {| url_valid := λ s, negb (has_control_character s); url_str := λ s, s |}.

(** A feed given as a table from URL to response; a URL that is not in the
    table cannot be fetched. *)
Fixpoint feed (table : list (string * page)) (url : string) : fetch :=
  match table with
  | [] => FetchError
  | (u, p) :: rest => if String.eqb u url then Fetched p else feed rest url
  end.

(** The fixed-width spelling [YYYY-MM-DDTHH:MM:SSZ] of the format of the
    importer, which is how GitHub writes [starred_at].  ([strptime] also
    takes one-digit fields; no example below has one.) *)
Definition digit (c : ascii) : option Z :=
  let n := Z.of_nat (nat_of_ascii c) - 48 in
  if (0 <=? n) && (n <=? 9) then Some n else None.

Fixpoint digits (n : nat) (s : string) (acc : Z) : option (Z * string) :=
  match n with
  | O => Some (acc, s)
  | S n =>
      match s with
      | String c s => d ← digit c; digits n s (10 * acc + d)
      | EmptyString => None
      end
  end.

Definition expect (c : ascii) (s : string) : option string :=
  match s with
  | String c' s => if Ascii.eqb c c' then Some s else None
  | EmptyString => None
  end.

Definition leap_year (y : Z) : bool :=
  ((y mod 4 =? 0) && negb (y mod 100 =? 0)) || (y mod 400 =? 0).

Definition days_in_month (y m : Z) : Z :=
  if m =? 2 then (if leap_year y then 29 else 28)
  else if (m =? 4) || (m =? 6) || (m =? 9) || (m =? 11) then 30
  else 31.

Definition strptime_utc (s : string) : option datetime :=
  '(y, s) ← digits 4 s 0; s ← expect "-" s;
  '(m, s) ← digits 2 s 0; s ← expect "-" s;
  '(d, s) ← digits 2 s 0; s ← expect "T" s;
  '(hh, s) ← digits 2 s 0; s ← expect ":" s;
  '(mm, s) ← digits 2 s 0; s ← expect ":" s;
  '(ss, s) ← digits 2 s 0; s ← expect "Z" s;
  match s with
  | EmptyString =>
      if (1 <=? y) && (1 <=? m) && (m <=? 12) && (1 <=? d)
         && (d <=? days_in_month y m) && (hh <=? 23) && (mm <=? 59) && (ss <=? 59)
      then Some (mk_datetime y m d hh mm ss)
      else None
  | _ => None
  end.

(** ** Vocabulary of the further statements *)

(** The dictionary the importer builds from one item of a page. *)
Definition to_details (strptime : string → option datetime) (r : repo_info)
    : option details :=
  match strptime (starred_at_text r) with
  | Some timestamp => Some (mk_details (owner_login r) (name r) timestamp)
  | None => None
  end.

(** [visits] are the requests and responses met by following the links from
    [url], each response a success. *)
Fixpoint feed_visits (client_get : string → fetch) (url : option string)
    (visits : list (string * page)) : Prop :=
  match visits with
  | [] => True
  | (u, p) :: rest =>
      truthy url = true
      ∧ url = Some u
      ∧ client_get u = Fetched p
      ∧ is_success (page_status p) = true
      ∧ feed_visits client_get (links_next p) rest
  end.

(** The same, and the last response has no link to a next page. *)
Fixpoint feed_complete (client_get : string → fetch) (url : option string)
    (visits : list (string * page)) : Prop :=
  match visits with
  | [] => truthy url = false
  | (u, p) :: rest =>
      truthy url = true
      ∧ url = Some u
      ∧ client_get u = Fetched p
      ∧ is_success (page_status p) = true
      ∧ feed_complete client_get (links_next p) rest
  end.

(** The items of the pages visited, in order. *)
Definition visited_stars (visits : list (string * page)) : list repo_info :=
  concat ((λ v, stars_response v.2) <$> visits).

(** The text a location is stored as. *)
Definition location_text `{HttpxURL} (o : pyobj) : option string :=
  match o with
  | PathObj p => Some (path_str p)
  | URLObj u => Some (url_str u)
  | FromJson (JString s) => Some s
  | _ => None
  end.

(** [b'] is [b] as it comes back from the store: the title and the date are
    JSON values and are kept, the location is the URL built from the text
    the location of [b] is stored as, which [httpx] reads as a URL. *)
Definition reloads `{HttpxURL} (b b' : GitHubStar) : Prop :=
  ∃ (t d : json) (s : string),
    title b = FromJson t
    ∧ date_starred b = FromJson d
    ∧ location_text (location b) = Some s
    ∧ url_valid s = true
    ∧ b' = mk_GitHubStar (FromJson t) (URLObj s) (FromJson d).

(** * Properties *)

Example format_github :
  format_url "https://raw.githubusercontent.com/{owner}/{repository}/{branch}/{file}"
    "foo" "bar" "main" "README.md"
  = Return "https://raw.githubusercontent.com/foo/bar/main/README.md".
Proof. reflexivity. Qed.

Example format_codeberg :
  format_url "https://codeberg.org/{owner}/{repository}/raw//branch/{branch}/{file}"
    "foo" "bar" "main" "README.md"
  = Return "https://codeberg.org/foo/bar/raw//branch/main/README.md".
Proof. reflexivity. Qed.

Example format_unknown_field :
  format_url "https://example.org/{user}" "foo" "bar" "main" "README.md"
  = Raise (KeyError "user").
Proof. reflexivity. Qed.

Example github_master_only :
  build_raw_github_url
    (serves ["https://raw.githubusercontent.com/foo/bar/master/README.md"])
    "foo" "bar" None None
  = (Return (Some "https://raw.githubusercontent.com/foo/bar/master/README.md"),
     ["https://raw.githubusercontent.com/foo/bar/main/README.md";
      "https://raw.githubusercontent.com/foo/bar/master/README.md"]).
Proof. reflexivity. Qed.

Example strptime_utc_ok :
  strptime_utc "2023-01-01T00:00:00Z" = Some (mk_datetime 2023 1 1 0 0 0).
Proof. reflexivity. Qed.

Example strptime_utc_bad : strptime_utc "2023-02-30T00:00:00Z" = None.
Proof. reflexivity. Qed.

(** ** The resolver *)

Section ResolverFacts.
Variable client_head : string → probe.
Variables url_format owner repository : string.

(** Candidates whose probes are rejected are passed over, one request
    each. *)
Lemma probe_branches_skip file branches pre rest :
  Forall2 (λ b u, format_url url_format owner repository b file = Return u)
    branches pre →
  Forall (λ u, rejects client_head u = true) pre →
  probe_branches client_head url_format owner repository file (branches ++ rest)
  = ((probe_branches client_head url_format owner repository file rest).1,
     pre ++ (probe_branches client_head url_format owner repository file rest).2).
Proof.
  induction 1 as [|b u branches pre Hfmt _ IH]; intros Hrej.
  - simpl. by destruct (probe_branches _ _ _ _ _ rest).
  - apply Forall_cons in Hrej as [Hu Hpre].
    simpl. rewrite Hfmt. unfold rejects in Hu.
    destruct (client_head u) as [status| |e]; [|done..].
    apply negb_true_iff in Hu. rewrite Hu, (IH Hpre). done.
Qed.

Lemma probe_branches_accept file b u rest :
  format_url url_format owner repository b file = Return u →
  accepts client_head u = true →
  probe_branches client_head url_format owner repository file (b :: rest)
  = (Return (Some u), [u]).
Proof.
  intros Hfmt Hu. simpl. rewrite Hfmt. unfold accepts in Hu.
  destruct (client_head u); [by rewrite Hu | done..].
Qed.

Lemma probe_branches_abort file b u rest :
  format_url url_format owner repository b file = Return u →
  unreachable client_head u = true →
  probe_branches client_head url_format owner repository file (b :: rest)
  = (Return None, [u]).
Proof.
  intros Hfmt Hu. simpl. rewrite Hfmt. unfold unreachable in Hu.
  by destruct (client_head u).
Qed.

Lemma test_branches_cases branch :
  (∀ b, branch = Some b → b ≠ EmptyString → test_branches branch = [b])
  ∧ (branch = None ∨ branch = Some EmptyString →
     test_branches branch = ["main"; "master"]).
Proof.
  split.
  - intros b -> Hb. by destruct b.
  - by intros [-> | ->].
Qed.
End ResolverFacts.

(** C1 (amended).  The candidates are the given branch alone when a
    non-empty branch is given, and "main" then "master" when the branch is
    absent or empty.  With [urls] the URLs of the candidates in order: the
    first URL whose probe succeeds, every probe before it having been
    answered with a non-success status, is the result, and the requests made
    are exactly the URLs up to and including it; a probe that fails at the
    transport level, after rejected probes only, makes the result [None] and
    is the last request made; when every probe is rejected the result is
    [None], without an exception, after one request per candidate. *)
Theorem build_raw_forge_url_decision (client_head : string → probe)
    (url_format owner repository : string) (branch desired_file : option string)
    (urls : list string) :
  candidate_urls url_format owner repository branch desired_file urls →
  ((∀ b, branch = Some b → b ≠ EmptyString → test_branches branch = [b])
   ∧ (branch = None ∨ branch = Some EmptyString →
      test_branches branch = ["main"; "master"]))
  ∧ (∀ pre u post,
       urls = pre ++ u :: post →
       Forall (λ v, rejects client_head v = true) pre →
       accepts client_head u = true →
       build_raw_forge_url client_head url_format owner repository branch desired_file
       = (Return (Some u), pre ++ [u]))
  ∧ (∀ pre u post,
       urls = pre ++ u :: post →
       Forall (λ v, rejects client_head v = true) pre →
       unreachable client_head u = true →
       build_raw_forge_url client_head url_format owner repository branch desired_file
       = (Return None, pre ++ [u]))
  ∧ (Forall (λ v, rejects client_head v = true) urls →
     build_raw_forge_url client_head url_format owner repository branch desired_file
     = (Return None, urls)).
Proof.
  unfold candidate_urls, build_raw_forge_url. intros Hurls.
  split; [apply test_branches_cases|].
  split; [|split].
  - intros pre u post -> Hpre Hu.
    apply Forall2_app_inv_r in Hurls as (bpre & bpost & Hbpre & Hbpost & ->).
    apply Forall2_cons_inv_r in Hbpost as (b & brest & Hb & _ & ->).
    rewrite (probe_branches_skip _ _ _ _ _ _ pre _ Hbpre Hpre).
    by rewrite (probe_branches_accept _ _ _ _ _ _ u _ Hb Hu).
  - intros pre u post -> Hpre Hu.
    apply Forall2_app_inv_r in Hurls as (bpre & bpost & Hbpre & Hbpost & ->).
    apply Forall2_cons_inv_r in Hbpost as (b & brest & Hb & _ & ->).
    rewrite (probe_branches_skip _ _ _ _ _ _ pre _ Hbpre Hpre).
    by rewrite (probe_branches_abort _ _ _ _ _ _ u _ Hb Hu).
  - intros Hrej.
    rewrite <- (app_nil_r (test_branches branch)).
    rewrite (probe_branches_skip _ _ _ _ _ _ urls _ Hurls Hrej).
    simpl. by rewrite app_nil_r.
Qed.

Lemma build_raw_forge_url_decision_witness :
  build_raw_forge_url
    (serves ["https://raw.githubusercontent.com/foo/bar/master/README.md"])
    "https://raw.githubusercontent.com/{owner}/{repository}/{branch}/{file}"
    "foo" "bar" None None
  = (Return (Some "https://raw.githubusercontent.com/foo/bar/master/README.md"),
     ["https://raw.githubusercontent.com/foo/bar/main/README.md";
      "https://raw.githubusercontent.com/foo/bar/master/README.md"]).
Proof.
  destruct (build_raw_forge_url_decision
    (serves ["https://raw.githubusercontent.com/foo/bar/master/README.md"])
    "https://raw.githubusercontent.com/{owner}/{repository}/{branch}/{file}"
    "foo" "bar" None None
    ["https://raw.githubusercontent.com/foo/bar/main/README.md";
     "https://raw.githubusercontent.com/foo/bar/master/README.md"])
    as (_ & Hfirst & _ & _).
  - repeat constructor.
  - apply (Hfirst ["https://raw.githubusercontent.com/foo/bar/main/README.md"]
             "https://raw.githubusercontent.com/foo/bar/master/README.md" []).
    + reflexivity.
    + repeat constructor.
    + reflexivity.
Defined.

(** C1, as stated, fails when the branch is given as the empty string: it is
    not the sole candidate.  On a server that has the file on "main" only,
    the resolver returns the "main" URL, where probing the given branch
    alone finds nothing. *)
Lemma given_empty_branch_is_not_sole_candidate :
  test_branches (Some EmptyString) ≠ given_branch_candidates (Some EmptyString)
  ∧ build_raw_forge_url
      (serves ["https://raw.githubusercontent.com/foo/bar/main/README.md"])
      "https://raw.githubusercontent.com/{owner}/{repository}/{branch}/{file}"
      "foo" "bar" (Some EmptyString) None
    = (Return (Some "https://raw.githubusercontent.com/foo/bar/main/README.md"),
       ["https://raw.githubusercontent.com/foo/bar/main/README.md"])
  ∧ probe_branches
      (serves ["https://raw.githubusercontent.com/foo/bar/main/README.md"])
      "https://raw.githubusercontent.com/{owner}/{repository}/{branch}/{file}"
      "foo" "bar" "README.md" (given_branch_candidates (Some EmptyString))
    = (Return None, ["https://raw.githubusercontent.com/foo/bar//README.md"]).
Proof. split; [discriminate|]. split; reflexivity. Qed.

(** C10.  An empty branch is treated as no branch: the resolver probes the
    "main" URL first and, when that probe is answered with a non-success
    status, the "master" URL, and no other URL; its result and its requests
    are those of a call without a branch.  An empty file name is treated as
    no file name: the URLs probed are those of "README.md". *)
Theorem empty_branch_and_file_as_absent (client_head : string → probe)
    (url_format owner repository : string) (branch desired_file : option string) :
  (∀ u_main u_master : string,
     format_url url_format owner repository "main"
       (or_else desired_file "README.md") = Return u_main →
     format_url url_format owner repository "master"
       (or_else desired_file "README.md") = Return u_master →
     build_raw_forge_url client_head url_format owner repository
       (Some EmptyString) desired_file
     = match client_head u_main with
       | Response status_code =>
           if is_success status_code then (Return (Some u_main), [u_main])
           else
             match client_head u_master with
             | Response status_code' =>
                 (Return (if is_success status_code' then Some u_master else None),
                  [u_main; u_master])
             | RequestError => (Return None, [u_main; u_master])
             | Uncaught e => (Raise e, [u_main; u_master])
             end
       | RequestError => (Return None, [u_main])
       | Uncaught e => (Raise e, [u_main])
       end)
  ∧ build_raw_forge_url client_head url_format owner repository
      (Some EmptyString) desired_file
    = build_raw_forge_url client_head url_format owner repository None desired_file
  ∧ build_raw_forge_url client_head url_format owner repository
      (Some EmptyString) desired_file
    = probe_branches client_head url_format owner repository
        (or_else desired_file "README.md") ["main"; "master"]
  ∧ build_raw_forge_url client_head url_format owner repository
      branch (Some EmptyString)
    = build_raw_forge_url client_head url_format owner repository branch None
  ∧ build_raw_forge_url client_head url_format owner repository
      branch (Some EmptyString)
    = probe_branches client_head url_format owner repository
        "README.md" (test_branches branch)
  ∧ or_else (Some EmptyString) "README.md" = "README.md"
  ∧ ∀ b u : string,
      b ≠ EmptyString →
      format_url url_format owner repository b "README.md" = Return u →
      build_raw_forge_url client_head url_format owner repository
        (Some b) (Some EmptyString)
      = match client_head u with
        | Response status_code =>
            (Return (if is_success status_code then Some u else None), [u])
        | RequestError => (Return None, [u])
        | Uncaught e => (Raise e, [u])
        end.
Proof.
  split; [|repeat split].
  - intros u_main u_master Hmain Hmaster. unfold build_raw_forge_url. cbn [test_branches probe_branches].
    rewrite Hmain, Hmaster.
    destruct (client_head u_main) as [status| |e]; [|done..].
    destruct (is_success status); [done|].
    destruct (client_head u_master) as [status'| |e]; [|done..].
    by destruct (is_success status').
  - intros b u Hb Hfmt. destruct b as [|c s]; [done|].
    unfold build_raw_forge_url. cbn [test_branches probe_branches or_else].
    rewrite Hfmt.
    destruct (client_head u) as [status| |e]; [|done..].
    by destruct (is_success status).
Qed.

Lemma empty_branch_and_file_as_absent_witness :
  build_raw_forge_url
    (serves ["https://raw.githubusercontent.com/foo/bar/master/README.md"])
    "https://raw.githubusercontent.com/{owner}/{repository}/{branch}/{file}"
    "foo" "bar" (Some EmptyString) (Some EmptyString)
  = (Return (Some "https://raw.githubusercontent.com/foo/bar/master/README.md"),
     ["https://raw.githubusercontent.com/foo/bar/main/README.md";
      "https://raw.githubusercontent.com/foo/bar/master/README.md"]).
Proof.
  destruct (empty_branch_and_file_as_absent
    (serves ["https://raw.githubusercontent.com/foo/bar/master/README.md"])
    "https://raw.githubusercontent.com/{owner}/{repository}/{branch}/{file}"
    "foo" "bar" None (Some EmptyString)) as [Hprobes _].
  apply (Hprobes "https://raw.githubusercontent.com/foo/bar/main/README.md"
           "https://raw.githubusercontent.com/foo/bar/master/README.md").
  - reflexivity.
  - reflexivity.
Defined.

Example empty_branch_probes_main_then_master :
  build_raw_github_url
    (serves ["https://raw.githubusercontent.com/foo/bar/master/README.md"])
    "foo" "bar" (Some EmptyString) (Some EmptyString)
  = (Return (Some "https://raw.githubusercontent.com/foo/bar/master/README.md"),
     ["https://raw.githubusercontent.com/foo/bar/main/README.md";
      "https://raw.githubusercontent.com/foo/bar/master/README.md"]).
Proof. reflexivity. Qed.

Example transport_failure_short_circuits :
  build_raw_github_url offline "foo" "bar" None None
  = (Return None, ["https://raw.githubusercontent.com/foo/bar/main/README.md"]).
Proof. reflexivity. Qed.

(** ** The star importer *)

Section ImporterFacts.
Variable client_get : string → fetch.
Variable strptime : string → option datetime.

Lemma limit_reached_below total_repos (repo_details : list details) :
  below_limit total_repos (length repo_details) →
  limit_reached total_repos repo_details = false.
Proof.
  destruct total_repos as [limit|]; simpl; [|done].
  intros H. apply Z.leb_gt. lia.
Qed.

Lemma below_limit_le total_repos (n m : nat) :
  (n ≤ m)%nat → below_limit total_repos m → below_limit total_repos n.
Proof. destruct total_repos; simpl; [lia|done]. Qed.

(** A page whose items all parse, and which does not fill the limit, is
    appended whole. *)
Lemma collect_page_all total_repos stars repo_details :
  Forall (parses strptime) stars →
  below_limit total_repos (length repo_details + length stars) →
  ∃ more,
    collect_page strptime total_repos stars repo_details
    = Return (repo_details ++ more)
    ∧ length more = length stars.
Proof.
  revert repo_details.
  induction stars as [|r stars IH]; intros acc Hparse Hlim.
  - exists []. by rewrite app_nil_r.
  - apply Forall_cons in Hparse as [[ts Hts] Hparse]. simpl in *.
    rewrite Hts.
    rewrite limit_reached_below;
      [|eapply below_limit_le; [|exact Hlim]; rewrite length_app; simpl; lia].
    destruct (IH (acc ++ [mk_details (owner_login r) (name r) ts]) Hparse)
      as (more & Hmore & Hlen).
    { rewrite length_app. simpl.
      eapply below_limit_le; [|exact Hlim]. lia. }
    exists (mk_details (owner_login r) (name r) ts :: more).
    rewrite Hmore, <- app_assoc. simpl. by rewrite Hlen.
Qed.

(** The first item that does not parse, met before the limit, ends the
    loop with the error of [strptime]. *)
Lemma collect_page_malformed total_repos pre bad post repo_details :
  Forall (parses strptime) pre →
  strptime (starred_at_text bad) = None →
  below_limit total_repos (length repo_details + length pre) →
  collect_page strptime total_repos (pre ++ bad :: post) repo_details
  = Raise ValueError.
Proof.
  revert repo_details.
  induction pre as [|r pre IH]; intros acc Hparse Hbad Hlim.
  - simpl. by rewrite Hbad.
  - apply Forall_cons in Hparse as [[ts Hts] Hparse]. simpl in *.
    rewrite Hts.
    rewrite limit_reached_below;
      [|eapply below_limit_le; [|exact Hlim]; rewrite length_app; simpl; lia].
    apply IH; [done..|].
    rewrite length_app. simpl.
    eapply below_limit_le; [|exact Hlim]. lia.
Qed.

Lemma fetch_pages_malformed total_repos pages last pre bad post :
  ∀ (fuel : nat) (next_page_of_results : option string)
    (repo_details : list details),
  feed_prefix client_get next_page_of_results (pages ++ [last]) →
  Forall (parses strptime) (concat (stars_response <$> pages) ++ pre) →
  stars_response last = pre ++ bad :: post →
  strptime (starred_at_text bad) = None →
  below_limit total_repos
    (length repo_details + length (concat (stars_response <$> pages)) + length pre) →
  (length pages < fuel)%nat →
  (fetch_pages client_get strptime fuel total_repos next_page_of_results
     repo_details).1
  = Raise ValueError.
Proof.
  induction pages as [|p pages IH];
    intros fuel next acc Hfeed Hparse Hlast Hbad Hlim Hfuel.
  - simpl in Hfeed. destruct Hfeed as (Htruthy & (u & -> & Hget) & Hok & _).
    destruct u as [|c s]; [done|].
    destruct fuel as [|fuel]; [lia|].
    simpl in *. rewrite Hget, Hok, Hlast. simpl.
    rewrite collect_page_malformed; [done..|].
    eapply below_limit_le; [|exact Hlim]. lia.
  - simpl in Hfeed. destruct Hfeed as (Htruthy & (u & -> & Hget) & Hok & Hfeed).
    destruct u as [|c s]; [done|].
    destruct fuel as [|fuel]; [simpl in Hfuel; lia|].
    rewrite fmap_cons in Hparse, Hlim. cbn [concat length] in Hparse, Hlim, Hfuel.
    rewrite length_app in Hlim.
    rewrite <- app_assoc in Hparse. apply Forall_app in Hparse as [Hp Hparse].
    destruct (collect_page_all total_repos (stars_response p) acc Hp)
      as (more & Hmore & Hlen).
    { eapply below_limit_le; [|exact Hlim]. lia. }
    simpl. rewrite Hget, Hok. simpl. rewrite Hmore.
    rewrite limit_reached_below.
    2:{ rewrite length_app, Hlen. eapply below_limit_le; [|exact Hlim]. lia. }
    specialize (IH fuel (links_next p) (acc ++ more) Hfeed Hparse Hlast Hbad).
    destruct (fetch_pages client_get strptime fuel total_repos (links_next p)
                (acc ++ more)) as [r requests].
    cbn [fst] in *. apply IH; [|lia].
    rewrite length_app, Hlen. eapply below_limit_le; [|exact Hlim]. lia.
Qed.

(** A request in the list of requests that failed is the one the loop
    returned [None] on. *)
Lemma fetch_pages_failure total_repos (u : string) :
  fetch_failed (client_get u) = true →
  ∀ (fuel : nat) (next_page_of_results : option string)
    (repo_details : list details),
  u ∈ (fetch_pages client_get strptime fuel total_repos next_page_of_results
         repo_details).2 →
  (fetch_pages client_get strptime fuel total_repos next_page_of_results
     repo_details).1
  = Return None.
Proof.
  intros Hfail. induction fuel as [|fuel IH]; intros next acc Hin.
  - destruct next as [[|c s]|]; simpl in Hin; by apply elem_of_nil in Hin.
  - destruct next as [[|c s]|]; simpl in Hin |- *;
      try by apply elem_of_nil in Hin.
    destruct (client_get (String c s)) as [p|] eqn:Hget; [|done].
    destruct (is_success (page_status p)) eqn:Hok; simpl in *; [|done].
    assert (Hne : u ≠ String c s).
    { intros ->. rewrite Hget in Hfail. simpl in Hfail. by rewrite Hok in Hfail. }
    destruct (collect_page strptime total_repos (stars_response p) acc)
      as [acc'| |]; simpl in *.
    + destruct (limit_reached total_repos acc'); simpl in *.
      * by apply list_elem_of_singleton in Hin.
      * specialize (IH (links_next p) acc').
        destruct (fetch_pages client_get strptime fuel total_repos
                    (links_next p) acc') as [r requests].
        simpl in *. apply elem_of_cons in Hin as [?|Hin]; [done|]. by apply IH.
    + by apply list_elem_of_singleton in Hin.
    + by apply list_elem_of_singleton in Hin.
Qed.
End ImporterFacts.

(** C7 (amended).  When the importer comes to a star whose [starred_at] does
    not parse -- on a page that was fetched with success, every page and
    every item before it having been taken, and before the limit is met --
    the whole import ends with the [ValueError] of the parser: no list is
    returned and the item is not passed over. *)
Theorem malformed_starred_at_is_fatal (client_get : string → fetch)
    (strptime : string → option datetime) (username : string)
    (total_repos : option Z) (pages : list page) (last : page)
    (pre : list repo_info) (bad : repo_info) (post : list repo_info) (fuel : nat) :
  feed_prefix client_get (Some (starred_url username)) (pages ++ [last]) →
  Forall (parses strptime) (concat (stars_response <$> pages) ++ pre) →
  stars_response last = pre ++ bad :: post →
  strptime (starred_at_text bad) = None →
  below_limit total_repos (length (concat (stars_response <$> pages)) + length pre) →
  (length pages < fuel)%nat →
  (_import_github_repo_details client_get strptime fuel username total_repos).1
  = Raise ValueError.
Proof.
  intros Hfeed Hparse Hlast Hbad Hlim Hfuel.
  unfold _import_github_repo_details.
  by eapply fetch_pages_malformed.
Qed.

Lemma malformed_starred_at_is_fatal_witness :
  (_import_github_repo_details
     (feed [("https://api.github.com/users/octocat/starred",
             mk_page 200 (Some "https://api.github.com/user/1/starred?page=2")
               [mk_repo_info "foo" "bar" "2023-01-01T00:00:00Z"]);
            ("https://api.github.com/user/1/starred?page=2",
             mk_page 200 None
               [mk_repo_info "foo" "baz" "2023-01-02T00:00:00Z";
                mk_repo_info "foo" "qux" "yesterday";
                mk_repo_info "foo" "quux" "2023-01-03T00:00:00Z"])])
     strptime_utc 2 "octocat" (Some 5)).1
  = Raise ValueError.
Proof.
  apply (malformed_starred_at_is_fatal _ _ _ _
    [mk_page 200 (Some "https://api.github.com/user/1/starred?page=2")
       [mk_repo_info "foo" "bar" "2023-01-01T00:00:00Z"]]
    (mk_page 200 None
       [mk_repo_info "foo" "baz" "2023-01-02T00:00:00Z";
        mk_repo_info "foo" "qux" "yesterday";
        mk_repo_info "foo" "quux" "2023-01-03T00:00:00Z"])
    [mk_repo_info "foo" "baz" "2023-01-02T00:00:00Z"]
    (mk_repo_info "foo" "qux" "yesterday")
    [mk_repo_info "foo" "quux" "2023-01-03T00:00:00Z"]).
  - simpl. repeat split; eauto.
  - repeat constructor; eexists; reflexivity.
  - reflexivity.
  - reflexivity.
  - simpl. lia.
  - simpl. lia.
Defined.

(** C7, as stated, fails for a malformed item that lies beyond the limit:
    the import stops before it and returns the list. *)
Lemma malformed_item_beyond_limit_is_not_fatal :
  strptime_utc "yesterday" = None
  ∧ _import_github_repo_details
      (feed [("https://api.github.com/users/octocat/starred",
              mk_page 200 None
                [mk_repo_info "foo" "bar" "2023-01-01T00:00:00Z";
                 mk_repo_info "foo" "qux" "yesterday"])])
      strptime_utc 1 "octocat" (Some 1)
    = (Return (Some [mk_details "foo" "bar" (mk_datetime 2023 1 1 0 0 0)]),
       ["https://api.github.com/users/octocat/starred"]).
Proof. split; reflexivity. Qed.

(** C8.  When a request for a page fails -- [client.get] raises, or the
    response has a non-success status -- the importer returns [None]: it
    raises nothing and returns none of the items of the earlier pages. *)
Theorem page_failure_returns_None (client_get : string → fetch)
    (strptime : string → option datetime) (fuel : nat) (username : string)
    (total_repos : option Z) (url : string) :
  url ∈ (_import_github_repo_details client_get strptime fuel username
           total_repos).2 →
  fetch_failed (client_get url) = true →
  (_import_github_repo_details client_get strptime fuel username total_repos).1
  = Return None.
Proof.
  intros Hin Hfail. unfold _import_github_repo_details in *.
  by eapply fetch_pages_failure.
Qed.

Lemma page_failure_returns_None_witness :
  (_import_github_repo_details
     (feed [("https://api.github.com/users/octocat/starred",
             mk_page 200 (Some "https://api.github.com/user/1/starred?page=2")
               [mk_repo_info "foo" "bar" "2023-01-01T00:00:00Z"]);
            ("https://api.github.com/user/1/starred?page=2",
             mk_page 503 None [])])
     strptime_utc 3 "octocat" None).1
  = Return None.
Proof.
  apply (page_failure_returns_None _ _ _ _ _
           "https://api.github.com/user/1/starred?page=2").
  - simpl. set_solver.
  - reflexivity.
Defined.

Example transport_failure_on_second_page :
  _import_github_repo_details
    (feed [("https://api.github.com/users/octocat/starred",
            mk_page 200 (Some "https://api.github.com/user/1/starred?page=2")
              [mk_repo_info "foo" "bar" "2023-01-01T00:00:00Z"])])
    strptime_utc 3 "octocat" None
  = (Return None,
     ["https://api.github.com/users/octocat/starred";
      "https://api.github.com/user/1/starred?page=2"]).
Proof. reflexivity. Qed.

(** C6 at the limit 0: the first item of the first page is appended before
    the limit is looked at, so the list returned has one item, which is more
    than the limit. *)
Theorem zero_limit_returns_one_item :
  _import_github_repo_details
    (feed [("https://api.github.com/users/octocat/starred",
            mk_page 200 None
              [mk_repo_info "foo" "bar" "2023-01-01T00:00:00Z";
               mk_repo_info "foo" "baz" "2023-01-02T00:00:00Z"])])
    strptime_utc 1 "octocat" (Some 0)
  = (Return (Some [mk_details "foo" "bar" (mk_datetime 2023 1 1 0 0 0)]),
     ["https://api.github.com/users/octocat/starred"]).
Proof. reflexivity. Qed.

(** X8.  With a limit that is not positive the importer still requests the
    first page and, when that page begins with an item that parses, returns
    that one item and requests nothing else. *)
Lemma nonpositive_limit_returns_first_item (client_get : string → fetch)
    (strptime : string → option datetime) (username : string) (limit : Z)
    (p : page) (r : repo_info) (rest : list repo_info) (ts : datetime)
    (fuel : nat) :
  limit ≤ 0 →
  client_get (starred_url username) = Fetched p →
  is_success (page_status p) = true →
  stars_response p = r :: rest →
  strptime (starred_at_text r) = Some ts →
  _import_github_repo_details client_get strptime (S fuel) username (Some limit)
  = (Return (Some [mk_details (owner_login r) (name r) ts]),
     [starred_url username]).
Proof.
  intros Hlimit Hget Hok Hstars Hts.
  unfold _import_github_repo_details.
  assert (∃ c s, starred_url username = String c s) as (c & s & Hurl)
    by (by eexists _, _).
  rewrite Hurl in *. simpl.
  rewrite Hget, Hok, Hstars. simpl. rewrite Hts. simpl.
  assert (Hreached : (limit <=? Z.of_nat 1) = true) by (apply Z.leb_le; lia).
  rewrite Hreached. simpl length. by rewrite Hreached.
Qed.

(** For a limit of at least one the list returned is within the limit. *)
Section PositiveLimit.
Variable client_get : string → fetch.
Variable strptime : string → option datetime.
Variable limit : Z.
Hypothesis limit_positive : 1 ≤ limit.

Lemma collect_page_within_limit stars (repo_details l : list details) :
  Z.of_nat (length repo_details) < limit →
  collect_page strptime (Some limit) stars repo_details = Return l →
  Z.of_nat (length l) ≤ limit.
Proof.
  revert repo_details.
  induction stars as [|r stars IH]; intros acc Hacc Hrun; simpl in Hrun.
  - injection Hrun as <-. lia.
  - destruct (strptime (starred_at_text r)) as [ts|]; [|done].
    destruct (limit <=? _) eqn:Hreached.
    + injection Hrun as <-. rewrite length_app. simpl. lia.
    + apply Z.leb_gt in Hreached. by eapply IH.
Qed.

Lemma fetch_pages_within_limit (fuel : nat) :
  ∀ (next_page_of_results : option string) (repo_details l : list details),
  Z.of_nat (length repo_details) < limit →
  (fetch_pages client_get strptime fuel (Some limit) next_page_of_results
     repo_details).1 = Return (Some l) →
  Z.of_nat (length l) ≤ limit.
Proof.
  induction fuel as [|fuel IH]; intros next acc l Hacc Hrun.
  - destruct next as [[|c s]|]; simpl in Hrun; try done;
      injection Hrun as <-; lia.
  - destruct next as [[|c s]|]; simpl in Hrun;
      try (injection Hrun as <-; lia).
    destruct (client_get (String c s)) as [p|]; [|done].
    destruct (is_success (page_status p)); simpl in Hrun; [|done].
    destruct (collect_page strptime (Some limit) (stars_response p) acc)
      as [acc'| |] eqn:Hpage; [|done..].
    apply collect_page_within_limit in Hpage; [|done].
    destruct (limit <=? _) eqn:Hreached.
    + simpl in Hrun. injection Hrun as <-. done.
    + apply Z.leb_gt in Hreached.
      specialize (IH (links_next p) acc' l Hreached).
      destruct (fetch_pages client_get strptime fuel (Some limit)
                  (links_next p) acc') as [r requests].
      by apply IH.
Qed.

(** X7.  With a limit of at least one, a list that the importer returns has
    at most [limit] items, whatever the feed. *)
Lemma import_within_positive_limit (fuel : nat) (username : string)
    (l : list details) :
  (_import_github_repo_details client_get strptime fuel username
     (Some limit)).1 = Return (Some l) →
  Z.of_nat (length l) ≤ limit.
Proof. apply fetch_pages_within_limit. simpl. lia. Qed.
End PositiveLimit.

(** ** Orchestration *)

Section GatherFacts.
Context {A : Type}.


End GatherFacts.

Lemma string_append_empty (s : string) : s +:+ EmptyString = s.
Proof.
  induction s as [|c s IH]; [done|].
  change (String c s +:+ EmptyString) with (String c (s +:+ EmptyString)).
  by rewrite IH.
Qed.

(** The GitHub template is filled in for every owner, repository, branch and
    file. *)
Lemma format_url_github (owner repository branch file : string) :
  format_url "https://raw.githubusercontent.com/{owner}/{repository}/{branch}/{file}"
    owner repository branch file
  = Return ("https://raw.githubusercontent.com/" +:+ owner +:+ "/" +:+ repository
            +:+ "/" +:+ branch +:+ "/" +:+ file).
Proof. rewrite <- (string_append_empty file) at 2. reflexivity. Qed.

Lemma format_url_gitlab (owner repository branch file : string) :
  format_url "https://gitlab.com/{owner}/{repository}/-/raw/{branch}/{file}"
    owner repository branch file
  = Return ("https://gitlab.com/" +:+ owner +:+ "/" +:+ repository
            +:+ "/-/raw/" +:+ branch +:+ "/" +:+ file).
Proof. rewrite <- (string_append_empty file) at 2. reflexivity. Qed.

Lemma format_url_bitbucket (owner repository branch file : string) :
  format_url "https://bitbucket.org/{owner}/{repository}/raw/{branch}/{file}"
    owner repository branch file
  = Return ("https://bitbucket.org/" +:+ owner +:+ "/" +:+ repository
            +:+ "/raw/" +:+ branch +:+ "/" +:+ file).
Proof. rewrite <- (string_append_empty file) at 2. reflexivity. Qed.

Lemma format_url_codeberg (owner repository branch file : string) :
  format_url "https://codeberg.org/{owner}/{repository}/raw//branch/{branch}/{file}"
    owner repository branch file
  = Return ("https://codeberg.org/" +:+ owner +:+ "/" +:+ repository
            +:+ "/raw//branch/" +:+ branch +:+ "/" +:+ file).
Proof. rewrite <- (string_append_empty file) at 2. reflexivity. Qed.



(** A resolution that raises is raised again by the orchestration: here the
    owner of the second star has a line feed in it, which the client
    refuses. *)
Example resolution_that_raises_is_raised_again :
  import_github_stars
    (feed [("https://api.github.com/users/octocat/starred",
            mk_page 200 None
              [mk_repo_info "foo" "bar" "2023-01-01T00:00:00Z";
               mk_repo_info (String "010" "foo") "baz" "2023-01-02T00:00:00Z"])])
    strptime_utc
    (checked (serves ["https://raw.githubusercontent.com/foo/bar/main/README.md"]))
    1 [0%nat; 1%nat] "octocat" None
  = Raise InvalidURL.
Proof. reflexivity. Qed.

Example stars_resolved_out_of_order :
  import_github_stars
    (feed [("https://api.github.com/users/octocat/starred",
            mk_page 200 None
              [mk_repo_info "foo" "bar" "2023-01-01T00:00:00Z";
               mk_repo_info "foo" "baz" "2023-01-02T00:00:00Z"])])
    strptime_utc
    (serves ["https://raw.githubusercontent.com/foo/bar/master/README.md"])
    1 [1%nat; 0%nat] "octocat" None
  = Return [Some "https://raw.githubusercontent.com/foo/bar/master/README.md"; None].
Proof. reflexivity. Qed.

Example one_star_on_main :
  import_github_stars
    (feed [("https://api.github.com/users/octocat/starred",
            mk_page 200 None [mk_repo_info "foo" "bar" "2023-01-01T00:00:00Z"])])
    strptime_utc
    (serves ["https://raw.githubusercontent.com/foo/bar/main/README.md"])
    1 [0%nat] "octocat" None
  = Return [Some "https://raw.githubusercontent.com/foo/bar/main/README.md"].
Proof. reflexivity. Qed.

Example failed_import_is_a_type_error :
  import_github_stars (feed []) strptime_utc offline 1 [] "octocat" None
  = Raise TypeError.
Proof. reflexivity. Qed.

(** ** The star store *)

(** C3 on the code: the name of the file is the text of the literal, braces
    and all; the username does not enter it, and two usernames share one
    file. *)
Theorem github_stars_file_ignores_username (data_directory : Path)
    (username other : string) :
  github_stars_file data_directory username
  = data_directory ++ ["{username}_github_stars.json"]
  ∧ github_stars_file data_directory username
    = github_stars_file data_directory other.
Proof. split; reflexivity. Qed.

Example alice_and_bob_share_a_file :
  github_stars_file ["/"; "home"; "me"; ".local"; "share"; "frogmouth"] "alice"
  = github_stars_file ["/"; "home"; "me"; ".local"; "share"; "frogmouth"] "bob".
Proof. reflexivity. Qed.

Section StoreFacts.
Context `{HttpxURL}.

(** C4 on the code: [save_bookmarks] calls [github_stars_file] without the
    username it requires, so every call raises [TypeError] before anything
    is encoded or written. *)
Theorem save_bookmarks_raises (data_directory : Path) (json_text : json → string)
    (bookmarks : list GitHubStar) (fs : gmap Path string) :
  save_bookmarks data_directory json_text bookmarks fs = Raise TypeError.
Proof. reflexivity. Qed.

(** C5 on the code: [load_bookmarks] calls [github_stars_file] without the
    username it requires, so every call raises [TypeError], also when no
    file exists. *)
Theorem load_bookmarks_raises (data_directory : Path)
    (json_parse : string → option json) (fs : gmap Path string) :
  load_bookmarks data_directory json_parse fs = Raise TypeError
  ∧ load_bookmarks data_directory json_parse ∅ = Raise TypeError.
Proof. split; reflexivity. Qed.

(** C2 on the code: saving two stars, one at a URL and one at a local path,
    raises and leaves nothing to load; loading raises as well. *)
Theorem save_then_load_raises (data_directory : Path)
    (json_text : json → string) (json_parse : string → option json) :
  save_bookmarks data_directory json_text
    [mk_GitHubStar (FromJson (JString "foo/bar"))
       (URLObj "https://raw.githubusercontent.com/foo/bar/main/README.md")
       (FromJson (JString "2023-01-01 00:00:00"));
     mk_GitHubStar (FromJson (JString "notes"))
       (PathObj ["/"; "home"; "me"; "notes.md"])
       (FromJson (JString "2023-01-02 00:00:00"))]
    ∅
  = Raise TypeError
  ∧ load_bookmarks data_directory json_parse ∅ = Raise TypeError.
Proof. split; reflexivity. Qed.

End StoreFacts.

Section StoreExamples.
#[local] Existing Instance plain_urls.

(** What the encoder does with the values of a star. *)
Example encode_URL :
  encode (URLObj "https://example.org/README.md")
  = Return (JString "https://example.org/README.md").
Proof. reflexivity. Qed.

Example encode_Path :
  encode (PathObj ["/"; "home"; "me"; "notes.md"])
  = Return (JString "/home/me/notes.md").
Proof. reflexivity. Qed.

Example encode_datetime :
  encode (DatetimeObj (mk_datetime 2023 1 1 0 0 0)) = Raise ValueError.
Proof. reflexivity. Qed.

Example encode_current_directory :
  encode (PathObj []) = Return (JString ".").
Proof. reflexivity. Qed.

Example load_star_row :
  load_star (JArray [JString "foo/bar"; JString "/home/me/notes.md";
                     JString "2023-01-01 00:00:00"])
  = Return (mk_GitHubStar (FromJson (JString "foo/bar"))
              (URLObj "/home/me/notes.md")
              (FromJson (JString "2023-01-01 00:00:00"))).
Proof. reflexivity. Qed.

Example load_star_refused :
  load_star (JArray [JString "foo/bar"; JString (String "010" "notes.md");
                     JString "2023-01-01 00:00:00"])
  = Raise InvalidURL.
Proof. reflexivity. Qed.
End StoreExamples.

(** ** Further properties of the resolver *)

Section ResolverInversion.
Variable client_head : string → probe.
Variables url_format owner repository file : string.

(** A URL that is returned was accepted, after rejected probes only. *)
Lemma probe_branches_some (branches : list string) (u : URL)
    (requests : list string) :
  probe_branches client_head url_format owner repository file branches
  = (Return (Some u), requests) →
  accepts client_head u = true
  ∧ (∃ pre, requests = pre ++ [u]
            ∧ Forall (λ v, rejects client_head v = true) pre)
  ∧ ∃ b, b ∈ branches ∧ format_url url_format owner repository b file = Return u.
Proof.
  revert requests.
  induction branches as [|b branches IH]; intros requests Hrun; simpl in Hrun.
  - done.
  - destruct (format_url url_format owner repository b file) as [url| |] eqn:Hfmt;
      [|done..].
    destruct (client_head url) as [status| |e] eqn:Hhead; [|done..].
    destruct (is_success status) eqn:Hok.
    + injection Hrun as <- <-. split; [|split].
      * unfold accepts. by rewrite Hhead.
      * by exists [].
      * exists b. split; [by left|done].
    + destruct (probe_branches client_head url_format owner repository file
                  branches) as [r requests'] eqn:Hrest.
      injection Hrun as -> <-.
      destruct (IH requests' eq_refl) as (Hacc & (pre & -> & Hpre) & b' & Hb' & Hfmt').
      split; [done|]. split.
      * exists (url :: pre). split; [done|]. constructor; [|done].
        unfold rejects. by rewrite Hhead, Hok.
      * exists b'. split; [by right|done].
Qed.

(** When nothing is returned, no probe that was made was accepted. *)
Lemma probe_branches_none (branches : list string) (requests : list string) :
  probe_branches client_head url_format owner repository file branches
  = (Return None, requests) →
  Forall (λ v, accepts client_head v = false) requests.
Proof.
  revert requests.
  induction branches as [|b branches IH]; intros requests Hrun; simpl in Hrun.
  - by injection Hrun as <-.
  - destruct (format_url url_format owner repository b file) as [url| |] eqn:Hfmt;
      [|done..].
    destruct (client_head url) as [status| |e] eqn:Hhead.
    + destruct (is_success status) eqn:Hok; [done|].
      destruct (probe_branches client_head url_format owner repository file
                  branches) as [r requests'] eqn:Hrest.
      injection Hrun as -> <-. constructor; [|by apply IH].
      unfold accepts. by rewrite Hhead.
    + injection Hrun as <-. constructor; [|done].
      unfold accepts. by rewrite Hhead.
    + done.
Qed.

(** With a template that is filled in for every branch, the loop calls
    [client.head] at least once when there is a candidate and at most once
    for each candidate, and it returns unless [client.head] raises what the
    loop does not catch, which then is what the loop raises, on its last
    call. *)
Lemma probe_branches_outcome (branches : list string) :
  (∀ b, ∃ u, format_url url_format owner repository b file = Return u) →
  (length (probe_branches client_head url_format owner repository file
             branches).2 ≤ length branches)%nat
  ∧ (branches ≠ [] →
     (1 ≤ length (probe_branches client_head url_format owner repository file
                    branches).2)%nat)
  ∧ ((∃ outcome : option URL,
        (probe_branches client_head url_format owner repository file branches).1
        = Return outcome)
     ∨ ∃ (e : exn) (pre : list string) (u : string),
         (probe_branches client_head url_format owner repository file branches).1
         = Raise e
         ∧ (probe_branches client_head url_format owner repository file
              branches).2 = pre ++ [u]
         ∧ client_head u = Uncaught e).
Proof.
  intros Hfmt. induction branches as [|b branches IH]; simpl.
  - split; [done|]. split; [done|]. left. by exists None.
  - destruct (Hfmt b) as [url ->].
    destruct (client_head url) as [status| |e] eqn:Hhead.
    + destruct (is_success status).
      * simpl. split; [lia|]. split; [intros _; lia|]. left. by eexists.
      * destruct IH as (Hle & _ & Hout).
        destruct (probe_branches client_head url_format owner repository file
                    branches) as [r requests'].
        simpl in *. split; [lia|]. split; [intros _; lia|].
        destruct Hout as [Hout|(e & pre & u & -> & -> & Hu)]; [by left|].
        right. by exists e, (url :: pre), u.
    + simpl. split; [lia|]. split; [intros _; lia|]. left. by eexists.
    + simpl. split; [lia|]. split; [intros _; lia|].
      right. by exists e, [], url.
Qed.
End ResolverInversion.

(** X1.  A URL that the resolver returns is the URL of one of its candidate
    branches, the server accepted it, it is the last request the resolver
    made, and every request before it was rejected. *)
Theorem resolved_url_was_accepted (client_head : string → probe)
    (url_format owner repository : string) (branch desired_file : option string)
    (u : URL) (requests : list string) :
  build_raw_forge_url client_head url_format owner repository branch desired_file
  = (Return (Some u), requests) →
  accepts client_head u = true
  ∧ (∃ pre, requests = pre ++ [u]
            ∧ Forall (λ v, rejects client_head v = true) pre)
  ∧ ∃ b, b ∈ test_branches branch
         ∧ format_url url_format owner repository b
             (or_else desired_file "README.md") = Return u.
Proof. apply probe_branches_some. Qed.

Lemma resolved_url_was_accepted_witness :
  accepts (serves ["https://gitlab.com/foo/bar/-/raw/master/README.md"])
    "https://gitlab.com/foo/bar/-/raw/master/README.md" = true
  ∧ (∃ pre,
       ["https://gitlab.com/foo/bar/-/raw/main/README.md";
        "https://gitlab.com/foo/bar/-/raw/master/README.md"]
       = pre ++ ["https://gitlab.com/foo/bar/-/raw/master/README.md"]
       ∧ Forall
           (λ v, rejects
                   (serves ["https://gitlab.com/foo/bar/-/raw/master/README.md"])
                   v = true) pre)
  ∧ ∃ b, b ∈ test_branches None
         ∧ format_url "https://gitlab.com/{owner}/{repository}/-/raw/{branch}/{file}"
             "foo" "bar" b (or_else None "README.md")
           = Return "https://gitlab.com/foo/bar/-/raw/master/README.md".
Proof.
  apply (resolved_url_was_accepted
           (serves ["https://gitlab.com/foo/bar/-/raw/master/README.md"])
           "https://gitlab.com/{owner}/{repository}/-/raw/{branch}/{file}"
           "foo" "bar" None None).
  reflexivity.
Defined.

(** X2.  When the resolver returns [None], the server accepted none of the
    URLs it was asked for. *)
Theorem unresolved_means_nothing_accepted (client_head : string → probe)
    (url_format owner repository : string) (branch desired_file : option string)
    (requests : list string) :
  build_raw_forge_url client_head url_format owner repository branch desired_file
  = (Return None, requests) →
  Forall (λ v, accepts client_head v = false) requests.
Proof. apply probe_branches_none. Qed.

Lemma unresolved_means_nothing_accepted_witness :
  Forall (λ v, accepts (serves []) v = false)
    ["https://bitbucket.org/foo/bar/raw/main/README.md";
     "https://bitbucket.org/foo/bar/raw/master/README.md"].
Proof.
  apply (unresolved_means_nothing_accepted (serves [])
           "https://bitbucket.org/{owner}/{repository}/raw/{branch}/{file}"
           "foo" "bar" None None).
  reflexivity.
Defined.

(** X3.  With a branch that is given and not empty, each of the four entry
    points calls [client.head] exactly once, with the URL of its forge for
    that branch and for the file looked for; it returns that URL when the
    probe succeeds, [None] when the probe is answered with another status
    or fails as a request, and it raises what [client.head] raises
    otherwise; "main" and "master" are not tried. *)
Theorem forge_entry_points_explicit_branch (client_head : string → probe)
    (owner repository b : string) (desired_file : option string) :
  b ≠ EmptyString →
  let file := or_else desired_file "README.md" in
  let outcome (url : string) : result (option URL) * list string :=
    match client_head url with
    | Response status_code =>
        (Return (if is_success status_code then Some url else None), [url])
    | RequestError => (Return None, [url])
    | Uncaught e => (Raise e, [url])
    end in
  build_raw_github_url client_head owner repository (Some b) desired_file
  = outcome ("https://raw.githubusercontent.com/" +:+ owner +:+ "/" +:+ repository
             +:+ "/" +:+ b +:+ "/" +:+ file)
  ∧ build_raw_gitlab_url client_head owner repository (Some b) desired_file
    = outcome ("https://gitlab.com/" +:+ owner +:+ "/" +:+ repository
               +:+ "/-/raw/" +:+ b +:+ "/" +:+ file)
  ∧ build_raw_bitbucket_url client_head owner repository (Some b) desired_file
    = outcome ("https://bitbucket.org/" +:+ owner +:+ "/" +:+ repository
               +:+ "/raw/" +:+ b +:+ "/" +:+ file)
  ∧ build_raw_codeberg_url client_head owner repository (Some b) desired_file
    = outcome ("https://codeberg.org/" +:+ owner +:+ "/" +:+ repository
               +:+ "/raw//branch/" +:+ b +:+ "/" +:+ file).
Proof.
  intros Hb file outcome. destruct b as [|c s]; [done|].
  unfold build_raw_github_url, build_raw_gitlab_url, build_raw_bitbucket_url,
    build_raw_codeberg_url, build_raw_forge_url.
  cbn [test_branches probe_branches]. fold file.
  rewrite format_url_github, format_url_gitlab, format_url_bitbucket,
    format_url_codeberg.
  unfold outcome.
  repeat split;
    (destruct (client_head _) as [status| |e];
     [destruct (is_success status)| |]; done).
Qed.

Lemma forge_entry_points_explicit_branch_witness :
  build_raw_codeberg_url
    (checked
       (serves ["https://codeberg.org/foo/bar/raw//branch/trunk/docs/index.md"]))
    "foo" "bar" (Some "trunk") (Some "docs/index.md")
  = (Return (Some "https://codeberg.org/foo/bar/raw//branch/trunk/docs/index.md"),
     ["https://codeberg.org/foo/bar/raw//branch/trunk/docs/index.md"]).
Proof.
  apply (forge_entry_points_explicit_branch
           (checked
              (serves
                 ["https://codeberg.org/foo/bar/raw//branch/trunk/docs/index.md"]))
           "foo" "bar" "trunk" (Some "docs/index.md")).
  discriminate.
Defined.

Example branch_with_line_feed_raises :
  build_raw_github_url (checked (serves [])) "foo" "bar"
    (Some (String "010" "main")) None
  = (Raise InvalidURL,
     ["https://raw.githubusercontent.com/foo/bar/" +:+ String "010" "main"
      +:+ "/README.md"]).
Proof. reflexivity. Qed.

(** X4.  The four entry points raise nothing of their own, whatever the
    owner, the repository, the branch and the file: each calls [client.head]
    once or twice, and either returns (a URL or [None]) or raises the
    exception that its last call of [client.head] raised. *)
Theorem forge_entry_points_raise_only_from_head (client_head : string → probe)
    (owner repository : string) (branch desired_file : option string) :
  let ends (run : result (option URL) * list string) : Prop :=
    (1 ≤ length run.2 ≤ 2)%nat
    ∧ ((∃ outcome : option URL, run.1 = Return outcome)
       ∨ ∃ (e : exn) (pre : list string) (u : string),
           run.1 = Raise e ∧ run.2 = pre ++ [u] ∧ client_head u = Uncaught e) in
  ends (build_raw_github_url client_head owner repository branch desired_file)
  ∧ ends (build_raw_gitlab_url client_head owner repository branch desired_file)
  ∧ ends (build_raw_bitbucket_url client_head owner repository branch
            desired_file)
  ∧ ends (build_raw_codeberg_url client_head owner repository branch
            desired_file).
Proof.
  intros ends.
  assert (Hlen : (1 ≤ length (test_branches branch) ≤ 2)%nat
                 ∧ test_branches branch ≠ []).
  { destruct branch as [[|c s]|]; simpl; split; (lia || done). }
  destruct Hlen as [Hlen Hne].
  assert (Hends : ∀ url_format,
            (∀ b, ∃ u, format_url url_format owner repository b
                         (or_else desired_file "README.md") = Return u) →
            ends (build_raw_forge_url client_head url_format owner repository
                    branch desired_file)).
  { intros url_format Hfmt. unfold ends, build_raw_forge_url.
    destruct (probe_branches_outcome client_head url_format owner repository
                (or_else desired_file "README.md") (test_branches branch) Hfmt)
      as (Hle & Hge & Hout).
    specialize (Hge Hne). split; [lia|done]. }
  unfold build_raw_github_url, build_raw_gitlab_url, build_raw_bitbucket_url,
    build_raw_codeberg_url.
  split; [|split; [|split]]; apply Hends; intros b.
  - rewrite format_url_github. eauto.
  - rewrite format_url_gitlab. eauto.
  - rewrite format_url_bitbucket. eauto.
  - rewrite format_url_codeberg. eauto.
Qed.

(** ** Further properties of the star importer *)

Section ImporterRuns.
Variable client_get : string → fetch.
Variable strptime : string → option datetime.

(** A page that does not fill the limit is appended whole, as the
    dictionaries of its items. *)
Lemma collect_page_details total_repos stars (ds repo_details : list details) :
  Forall2 (λ r d, to_details strptime r = Some d) stars ds →
  below_limit total_repos (length repo_details + length ds) →
  collect_page strptime total_repos stars repo_details
  = Return (repo_details ++ ds).
Proof.
  intros Hds. revert repo_details.
  induction Hds as [|r d stars ds Hd _ IH]; intros acc Hlim; simpl.
  - by rewrite app_nil_r.
  - unfold to_details in Hd.
    destruct (strptime (starred_at_text r)) as [ts|]; [|done].
    injection Hd as <-. simpl in Hlim.
    rewrite limit_reached_below;
      [|eapply below_limit_le; [|exact Hlim]; rewrite length_app; simpl; lia].
    rewrite IH; [by rewrite <- app_assoc|].
    rewrite length_app. simpl. eapply below_limit_le; [|exact Hlim]. lia.
Qed.

(** A page whose items fill the limit is appended up to the item that
    fills it. *)
Lemma collect_page_fills (limit : Z) pre post (ds repo_details : list details) :
  Forall2 (λ r d, to_details strptime r = Some d) pre ds →
  pre ≠ [] →
  Z.of_nat (length repo_details + length ds) = limit →
  collect_page strptime (Some limit) (pre ++ post) repo_details
  = Return (repo_details ++ ds).
Proof.
  intros Hds. revert repo_details.
  induction Hds as [|r d pre ds Hd Hrest IH]; intros acc Hne Hlim; [done|].
  simpl. unfold to_details in Hd.
  destruct (strptime (starred_at_text r)) as [ts|]; [|done].
  injection Hd as <-. simpl in Hlim.
  destruct pre as [|r' pre].
  - apply Forall2_nil_inv_l in Hrest as ->. simpl in Hlim.
    simpl. rewrite length_app. simpl.
    assert ((limit <=? Z.of_nat (length acc + 1)) = true) as ->
      by (apply Z.leb_le; lia).
    done.
  - pose proof (Forall2_length _ _ _ Hrest) as Hlen. simpl in Hlen.
    simpl limit_reached. rewrite length_app. simpl length.
    assert ((limit <=? Z.of_nat (length acc + 1)) = false) as ->
      by (apply Z.leb_gt; lia).
    rewrite IH; [by rewrite <- app_assoc|done|].
    rewrite length_app. simpl. lia.
Qed.

Lemma fetch_pages_whole_feed total_repos (visits : list (string * page)) :
  ∀ (fuel : nat) (next_page_of_results : option string)
    (ds repo_details : list details),
  feed_complete client_get next_page_of_results visits →
  Forall2 (λ r d, to_details strptime r = Some d) (visited_stars visits) ds →
  below_limit total_repos (length repo_details + length ds) →
  (length visits ≤ fuel)%nat →
  fetch_pages client_get strptime fuel total_repos next_page_of_results
    repo_details
  = (Return (Some (repo_details ++ ds)), visits.*1).
Proof.
  induction visits as [|[u p] visits IH];
    intros fuel next ds acc Hfeed Hds Hlim Hfuel.
  - simpl in Hfeed. apply Forall2_nil_inv_l in Hds as ->. rewrite app_nil_r.
    destruct next as [[|c s]|]; try done; by destruct fuel.
  - simpl in Hfeed. destruct Hfeed as (Htruthy & -> & Hget & Hok & Hfeed).
    destruct u as [|c s]; [done|].
    destruct fuel as [|fuel]; [simpl in Hfuel; lia|].
    unfold visited_stars in Hds. rewrite fmap_cons in Hds.
    cbn [concat snd] in Hds.
    apply Forall2_app_inv_l in Hds as (ds1 & ds2 & Hds1 & Hds2 & ->).
    rewrite length_app in Hlim.
    simpl. rewrite Hget, Hok. simpl.
    rewrite (collect_page_details total_repos _ ds1 acc Hds1);
      [|eapply below_limit_le; [|exact Hlim]; lia].
    rewrite limit_reached_below;
      [|rewrite length_app; eapply below_limit_le; [|exact Hlim]; lia].
    rewrite (IH fuel (links_next p) ds2 (acc ++ ds1) Hfeed Hds2).
    + by rewrite <- app_assoc.
    + rewrite length_app. eapply below_limit_le; [|exact Hlim]. lia.
    + simpl in Hfuel. lia.
Qed.

Lemma fetch_pages_fills_limit (limit : Z) (visits : list (string * page))
    (u : string) (last : page) pre post :
  ∀ (fuel : nat) (next_page_of_results : option string)
    (ds repo_details : list details),
  feed_visits client_get next_page_of_results (visits ++ [(u, last)]) →
  stars_response last = pre ++ post →
  pre ≠ [] →
  Forall2 (λ r d, to_details strptime r = Some d) (visited_stars visits ++ pre) ds →
  Z.of_nat (length repo_details + length ds) = limit →
  (length visits < fuel)%nat →
  fetch_pages client_get strptime fuel (Some limit) next_page_of_results
    repo_details
  = (Return (Some (repo_details ++ ds)), visits.*1 ++ [u]).
Proof.
  induction visits as [|[v p] visits IH];
    intros fuel next ds acc Hfeed Hlast Hne Hds Hlim Hfuel.
  - simpl in Hfeed. destruct Hfeed as (Htruthy & -> & Hget & Hok & _).
    destruct u as [|c s]; [done|].
    destruct fuel as [|fuel]; [lia|].
    simpl in Hds. simpl. rewrite Hget, Hok, Hlast. simpl.
    rewrite (collect_page_fills limit pre post ds acc Hds Hne Hlim).
    assert ((limit <=? Z.of_nat (length (acc ++ ds))) = true) as ->
      by (apply Z.leb_le; rewrite length_app; lia).
    done.
  - simpl in Hfeed. destruct Hfeed as (Htruthy & -> & Hget & Hok & Hfeed).
    destruct v as [|c s]; [done|].
    destruct fuel as [|fuel]; [simpl in Hfuel; lia|].
    unfold visited_stars in Hds. rewrite fmap_cons in Hds.
    cbn [concat snd] in Hds.
    rewrite <- app_assoc in Hds.
    apply Forall2_app_inv_l in Hds as (ds1 & ds2 & Hds1 & Hds2 & ->).
    rewrite length_app in Hlim.
    assert (Hpos : (0 < length ds2)%nat).
    { apply Forall2_length in Hds2. rewrite <- Hds2, length_app.
      destruct pre; [done|simpl; lia]. }
    simpl. rewrite Hget, Hok. simpl.
    rewrite (collect_page_details (Some limit) _ ds1 acc Hds1); [|simpl; lia].
    assert ((limit <=? Z.of_nat (length (acc ++ ds1))) = false) as ->
      by (apply Z.leb_gt; rewrite length_app; lia).
    rewrite (IH fuel (links_next p) ds2 (acc ++ ds1) Hfeed Hlast Hne Hds2).
    + by rewrite <- app_assoc.
    + rewrite length_app. lia.
    + simpl in Hfuel. lia.
Qed.

(** A request that failed is the last request made. *)
Lemma fetch_pages_failure_is_last total_repos (u : string) :
  fetch_failed (client_get u) = true →
  ∀ (fuel : nat) (next_page_of_results : option string)
    (repo_details : list details) (pre post : list string),
  (fetch_pages client_get strptime fuel total_repos next_page_of_results
     repo_details).2 = pre ++ u :: post →
  post = [].
Proof.
  intros Hfail.
  assert (Hone : ∀ (url : string) (pre post : list string),
            [url] = pre ++ u :: post → post = []).
  { intros url [|x pre] post H; [by injection H|].
    injection H as _ H. by destruct pre. }
  induction fuel as [|fuel IH]; intros next acc pre post Hrun.
  - destruct next as [[|c s]|]; simpl in Hrun; by destruct pre.
  - destruct next as [[|c s]|]; simpl in Hrun; try by destruct pre.
    destruct (client_get (String c s)) as [p|] eqn:Hget; [|by eapply Hone].
    destruct (is_success (page_status p)) eqn:Hok; simpl in Hrun;
      [|by eapply Hone].
    assert (Hne : u ≠ String c s).
    { intros ->. rewrite Hget in Hfail. simpl in Hfail. by rewrite Hok in Hfail. }
    destruct (collect_page strptime total_repos (stars_response p) acc)
      as [acc'| |]; simpl in Hrun; [|by eapply Hone..].
    destruct (limit_reached total_repos acc'); simpl in Hrun; [by eapply Hone|].
    specialize (IH (links_next p) acc').
    destruct (fetch_pages client_get strptime fuel total_repos (links_next p)
                acc') as [r requests].
    simpl in *. destruct pre as [|x pre].
    + injection Hrun as Hu _. by symmetry in Hu.
    + injection Hrun as _ Hrun. by eapply IH.
Qed.
End ImporterRuns.

(** X5.  When every page of the feed is fetched with success, every item
    parses, the last page has no link to a next page and the items are fewer
    than the limit (or there is no limit), the importer returns the
    dictionaries of all the items, in the order of the feed, after one
    request for each page. *)
Theorem import_whole_feed (client_get : string → fetch)
    (strptime : string → option datetime) (username : string)
    (total_repos : option Z) (visits : list (string * page))
    (ds : list details) (fuel : nat) :
  feed_complete client_get (Some (starred_url username)) visits →
  Forall2 (λ r d, to_details strptime r = Some d) (visited_stars visits) ds →
  below_limit total_repos (length ds) →
  (length visits ≤ fuel)%nat →
  _import_github_repo_details client_get strptime fuel username total_repos
  = (Return (Some ds), visits.*1).
Proof.
  intros Hfeed Hds Hlim Hfuel. unfold _import_github_repo_details.
  by rewrite (fetch_pages_whole_feed client_get strptime total_repos visits
                fuel _ ds [] Hfeed Hds Hlim Hfuel).
Qed.

Lemma import_whole_feed_witness :
  _import_github_repo_details
    (feed [("https://api.github.com/users/octocat/starred",
            mk_page 200 (Some "https://api.github.com/user/1/starred?page=2")
              [mk_repo_info "foo" "bar" "2023-01-01T00:00:00Z"]);
           ("https://api.github.com/user/1/starred?page=2",
            mk_page 200 None
              [mk_repo_info "foo" "baz" "2023-01-02T00:00:00Z"])])
    strptime_utc 2 "octocat" None
  = (Return (Some [mk_details "foo" "bar" (mk_datetime 2023 1 1 0 0 0);
                   mk_details "foo" "baz" (mk_datetime 2023 1 2 0 0 0)]),
     ["https://api.github.com/users/octocat/starred";
      "https://api.github.com/user/1/starred?page=2"]).
Proof.
  apply (import_whole_feed _ _ _ _
    [("https://api.github.com/users/octocat/starred",
      mk_page 200 (Some "https://api.github.com/user/1/starred?page=2")
        [mk_repo_info "foo" "bar" "2023-01-01T00:00:00Z"]);
     ("https://api.github.com/user/1/starred?page=2",
      mk_page 200 None [mk_repo_info "foo" "baz" "2023-01-02T00:00:00Z"])]).
  - simpl. repeat split.
  - repeat constructor.
  - exact I.
  - simpl. lia.
Defined.

(** X6.  With a limit of at least one that the feed fills: when the pages up
    to the one that holds the item number [limit] are fetched with success
    and the items up to that one parse, the importer returns the
    dictionaries of exactly the first [limit] items and its last request is
    the one for that page, whatever the feed holds after it. *)
Theorem import_stops_at_positive_limit (client_get : string → fetch)
    (strptime : string → option datetime) (username : string) (limit : Z)
    (visits : list (string * page)) (u : string) (last : page)
    (pre post : list repo_info) (ds : list details) (fuel : nat) :
  feed_visits client_get (Some (starred_url username)) (visits ++ [(u, last)]) →
  stars_response last = pre ++ post →
  pre ≠ [] →
  Forall2 (λ r d, to_details strptime r = Some d) (visited_stars visits ++ pre) ds →
  Z.of_nat (length ds) = limit →
  (length visits < fuel)%nat →
  _import_github_repo_details client_get strptime fuel username (Some limit)
  = (Return (Some ds), visits.*1 ++ [u]).
Proof.
  intros Hfeed Hlast Hne Hds Hlim Hfuel. unfold _import_github_repo_details.
  by rewrite (fetch_pages_fills_limit client_get strptime limit visits u last
                pre post fuel _ ds [] Hfeed Hlast Hne Hds Hlim Hfuel).
Qed.

Lemma import_stops_at_positive_limit_witness :
  _import_github_repo_details
    (feed [("https://api.github.com/users/octocat/starred",
            mk_page 200 (Some "https://api.github.com/user/1/starred?page=2")
              [mk_repo_info "foo" "bar" "2023-01-01T00:00:00Z"]);
           ("https://api.github.com/user/1/starred?page=2",
            mk_page 200 (Some "https://api.github.com/user/1/starred?page=3")
              [mk_repo_info "foo" "baz" "2023-01-02T00:00:00Z";
               mk_repo_info "foo" "qux" "yesterday"])])
    strptime_utc 2 "octocat" (Some 2)
  = (Return (Some [mk_details "foo" "bar" (mk_datetime 2023 1 1 0 0 0);
                   mk_details "foo" "baz" (mk_datetime 2023 1 2 0 0 0)]),
     ["https://api.github.com/users/octocat/starred";
      "https://api.github.com/user/1/starred?page=2"]).
Proof.
  apply (import_stops_at_positive_limit _ _ _ _
    [("https://api.github.com/users/octocat/starred",
      mk_page 200 (Some "https://api.github.com/user/1/starred?page=2")
        [mk_repo_info "foo" "bar" "2023-01-01T00:00:00Z"])]
    "https://api.github.com/user/1/starred?page=2"
    (mk_page 200 (Some "https://api.github.com/user/1/starred?page=3")
       [mk_repo_info "foo" "baz" "2023-01-02T00:00:00Z";
        mk_repo_info "foo" "qux" "yesterday"])
    [mk_repo_info "foo" "baz" "2023-01-02T00:00:00Z"]
    [mk_repo_info "foo" "qux" "yesterday"]).
  - simpl. repeat split.
  - reflexivity.
  - discriminate.
  - repeat constructor.
  - reflexivity.
  - simpl. lia.
Defined.

Lemma import_within_positive_limit_witness :
  Z.of_nat (length [mk_details "foo" "bar" (mk_datetime 2023 1 1 0 0 0);
                    mk_details "foo" "baz" (mk_datetime 2023 1 2 0 0 0)]) ≤ 2.
Proof.
  apply (import_within_positive_limit
    (feed [("https://api.github.com/users/octocat/starred",
            mk_page 200 None
              [mk_repo_info "foo" "bar" "2023-01-01T00:00:00Z";
               mk_repo_info "foo" "baz" "2023-01-02T00:00:00Z";
               mk_repo_info "foo" "qux" "2023-01-03T00:00:00Z"])])
    strptime_utc 2 ltac:(lia) 1 "octocat").
  reflexivity.
Defined.

Lemma nonpositive_limit_returns_first_item_witness :
  _import_github_repo_details
    (feed [("https://api.github.com/users/octocat/starred",
            mk_page 200 None
              [mk_repo_info "foo" "bar" "2023-01-01T00:00:00Z";
               mk_repo_info "foo" "baz" "2023-01-02T00:00:00Z"])])
    strptime_utc 1 "octocat" (Some (-3))
  = (Return (Some [mk_details "foo" "bar" (mk_datetime 2023 1 1 0 0 0)]),
     ["https://api.github.com/users/octocat/starred"]).
Proof.
  apply (nonpositive_limit_returns_first_item
    (feed [("https://api.github.com/users/octocat/starred",
            mk_page 200 None
              [mk_repo_info "foo" "bar" "2023-01-01T00:00:00Z";
               mk_repo_info "foo" "baz" "2023-01-02T00:00:00Z"])])
    strptime_utc "octocat" (-3)
    (mk_page 200 None
       [mk_repo_info "foo" "bar" "2023-01-01T00:00:00Z";
        mk_repo_info "foo" "baz" "2023-01-02T00:00:00Z"])
    (mk_repo_info "foo" "bar" "2023-01-01T00:00:00Z")
    [mk_repo_info "foo" "baz" "2023-01-02T00:00:00Z"]
    (mk_datetime 2023 1 1 0 0 0) 0%nat).
  - lia.
  - reflexivity.
  - reflexivity.
  - reflexivity.
  - reflexivity.
Defined.

(** X9.  The importer does not go on after a page that failed: a request
    whose fetch failed is the last request it makes. *)
Theorem no_request_after_failed_fetch (client_get : string → fetch)
    (strptime : string → option datetime) (fuel : nat) (username : string)
    (total_repos : option Z) (url : string) (pre post : list string) :
  (_import_github_repo_details client_get strptime fuel username total_repos).2
  = pre ++ url :: post →
  fetch_failed (client_get url) = true →
  post = [].
Proof.
  intros Hrun Hfail. unfold _import_github_repo_details in Hrun.
  by eapply fetch_pages_failure_is_last.
Qed.

Lemma no_request_after_failed_fetch_witness : @nil string = [].
Proof.
  apply (no_request_after_failed_fetch
    (feed [("https://api.github.com/users/octocat/starred",
            mk_page 200 (Some "https://api.github.com/user/1/starred?page=2")
              [mk_repo_info "foo" "bar" "2023-01-01T00:00:00Z"]);
           ("https://api.github.com/user/1/starred?page=2",
            mk_page 500 (Some "https://api.github.com/user/1/starred?page=3") [])])
    strptime_utc 3 "octocat" None
    "https://api.github.com/user/1/starred?page=2"
    ["https://api.github.com/users/octocat/starred"]).
  - reflexivity.
  - reflexivity.
Defined.

(** ** Further properties of the orchestration *)

Section GatherLength.
Context {A : Type}.

Lemma fill_slots_length (tasks : list (result A)) (completion : list nat) :
  ∀ slots slots' : list (option A),
  fill_slots tasks completion slots = Return slots' →
  length slots' = length slots.
Proof.
  induction completion as [|i rest IH]; intros slots slots' Hrun; simpl in Hrun.
  - by injection Hrun as <-.
  - destruct (tasks !! i) as [[a|e|]|]; try done.
    + apply IH in Hrun. by rewrite length_insert in Hrun.
    + by apply IH.
Qed.

(** [gather] returns as many values as it was given tasks. *)
Lemma gather_length (tasks : list (result A)) (completion : list nat)
    (values : list A) :
  gather tasks completion = Return values → length values = length tasks.
Proof.
  unfold gather. intros Hrun.
  destruct (fill_slots tasks completion (replicate (length tasks) None))
    as [slots| |] eqn:Hslots; simpl in Hrun; [|done..].
  apply fill_slots_length in Hslots. rewrite length_replicate in Hslots.
  destruct (mapM id slots) as [values'|] eqn:Hmap; [|done].
  injection Hrun as <-. apply length_mapM in Hmap. lia.
Qed.
End GatherLength.

(** X10.  When a request for a page of the feed fails, the orchestration
    raises [TypeError]: the importer has returned [None], which the
    orchestration then iterates over; no resolution is started. *)
Theorem import_github_stars_after_page_failure (client_get : string → fetch)
    (strptime : string → option datetime) (client_head : string → probe)
    (fuel : nat) (completion : list nat) (username : string)
    (total_repos : option Z) (url : string) :
  url ∈ (_import_github_repo_details client_get strptime fuel username
           total_repos).2 →
  fetch_failed (client_get url) = true →
  import_github_stars client_get strptime client_head fuel completion username
    total_repos
  = Raise TypeError.
Proof.
  intros Hin Hfail. unfold import_github_stars.
  unfold _import_github_repo_details in *.
  by rewrite (fetch_pages_failure client_get strptime total_repos url Hfail
                fuel _ _ Hin).
Qed.

Lemma import_github_stars_after_page_failure_witness :
  import_github_stars
    (feed [("https://api.github.com/users/octocat/starred",
            mk_page 404 None [])])
    strptime_utc (serves []) 1 [] "octocat" None
  = Raise TypeError.
Proof.
  apply (import_github_stars_after_page_failure _ _ _ _ _ _ _
           "https://api.github.com/users/octocat/starred").
  - simpl. set_solver.
  - reflexivity.
Defined.

(** X11.  When the importer comes to a star whose [starred_at] does not
    parse, before the limit is met, the orchestration ends with the same
    [ValueError]: no resolution is started and no list is returned. *)
Theorem import_github_stars_malformed_timestamp (client_get : string → fetch)
    (strptime : string → option datetime) (client_head : string → probe)
    (completion : list nat) (username : string) (total_repos : option Z)
    (pages : list page) (last : page) (pre : list repo_info) (bad : repo_info)
    (post : list repo_info) (fuel : nat) :
  feed_prefix client_get (Some (starred_url username)) (pages ++ [last]) →
  Forall (parses strptime) (concat (stars_response <$> pages) ++ pre) →
  stars_response last = pre ++ bad :: post →
  strptime (starred_at_text bad) = None →
  below_limit total_repos (length (concat (stars_response <$> pages)) + length pre) →
  (length pages < fuel)%nat →
  import_github_stars client_get strptime client_head fuel completion username
    total_repos
  = Raise ValueError.
Proof.
  intros Hfeed Hparse Hlast Hbad Hlim Hfuel. unfold import_github_stars.
  unfold _import_github_repo_details.
  by rewrite (fetch_pages_malformed client_get strptime total_repos pages last
                pre bad post fuel _ [] Hfeed Hparse Hlast Hbad Hlim Hfuel).
Qed.

Lemma import_github_stars_malformed_timestamp_witness :
  import_github_stars
    (feed [("https://api.github.com/users/octocat/starred",
            mk_page 200 None
              [mk_repo_info "foo" "bar" "2023-01-01T00:00:00Z";
               mk_repo_info "foo" "qux" "2023-13-01T00:00:00Z"])])
    strptime_utc
    (serves ["https://raw.githubusercontent.com/foo/bar/main/README.md"])
    1 [0%nat; 1%nat] "octocat" None
  = Raise ValueError.
Proof.
  apply (import_github_stars_malformed_timestamp _ _ _ _ _ _ []
    (mk_page 200 None
       [mk_repo_info "foo" "bar" "2023-01-01T00:00:00Z";
        mk_repo_info "foo" "qux" "2023-13-01T00:00:00Z"])
    [mk_repo_info "foo" "bar" "2023-01-01T00:00:00Z"]
    (mk_repo_info "foo" "qux" "2023-13-01T00:00:00Z") []).
  - simpl. repeat split; eauto.
  - repeat constructor; eexists; reflexivity.
  - reflexivity.
  - reflexivity.
  - exact I.
  - simpl. lia.
Defined.

(** X12.  With a limit of at least one, a list that the orchestration
    returns has at most [limit] entries. *)
Theorem import_github_stars_within_limit (client_get : string → fetch)
    (strptime : string → option datetime) (client_head : string → probe)
    (fuel : nat) (completion : list nat) (username : string) (limit : Z)
    (urls : list (option URL)) :
  1 ≤ limit →
  import_github_stars client_get strptime client_head fuel completion username
    (Some limit)
  = Return urls →
  Z.of_nat (length urls) ≤ limit.
Proof.
  intros Hlimit. unfold import_github_stars, _import_github_repo_details.
  destruct (fetch_pages client_get strptime fuel (Some limit)
              (Some (starred_url username)) []) as [r requests] eqn:Hrun.
  simpl. destruct r as [[repo_details|]| |]; simpl; try done.
  intros Hgather. apply gather_length in Hgather.
  rewrite length_fmap in Hgather. rewrite Hgather.
  apply (fetch_pages_within_limit client_get strptime limit fuel
           (Some (starred_url username)) [] repo_details); [simpl; lia|].
  by rewrite Hrun.
Qed.

Lemma import_github_stars_within_limit_witness :
  Z.of_nat (length [Some "https://raw.githubusercontent.com/foo/bar/main/README.md";
                    @None URL]) ≤ 2.
Proof.
  apply (import_github_stars_within_limit
    (feed [("https://api.github.com/users/octocat/starred",
            mk_page 200 None
              [mk_repo_info "foo" "bar" "2023-01-01T00:00:00Z";
               mk_repo_info "foo" "baz" "2023-01-02T00:00:00Z";
               mk_repo_info "foo" "qux" "2023-01-03T00:00:00Z"])])
    strptime_utc
    (serves ["https://raw.githubusercontent.com/foo/bar/main/README.md"])
    1 [1%nat; 0%nat] "octocat" 2).
  - lia.
  - reflexivity.
Defined.

(** ** Further properties of the star store *)

Section StoreRows.
Context `{HttpxURL}.

Lemma encode_returns_or_value_error (o : pyobj) :
  (∃ j, encode o = Return j) ∨ encode o = Raise ValueError.
Proof. destruct o; simpl; eauto. Qed.

Lemma encode_star_datetime (b : GitHubStar) (d : datetime) :
  date_starred b = DatetimeObj d → encode_star b = Raise ValueError.
Proof.
  intros Hd. unfold encode_star. rewrite Hd.
  destruct (encode_returns_or_value_error (title b)) as [[t ->]| ->]; [|done].
  by destruct (encode_returns_or_value_error (location b)) as [[l ->]| ->].
Qed.

Lemma encode_star_returns_or_value_error (b : GitHubStar) :
  (∃ row, encode_star b = Return row) ∨ encode_star b = Raise ValueError.
Proof.
  unfold encode_star.
  destruct (encode_returns_or_value_error (title b)) as [[t ->]| ->]; [|by right].
  destruct (encode_returns_or_value_error (location b)) as [[l ->]| ->];
    [|by right].
  destruct (encode_returns_or_value_error (date_starred b)) as [[d ->]| ->];
    [|by right].
  left. by eexists.
Qed.

(** X13.  Encoding and loading compose to a round trip on what the store
    keeps: for stars whose title and date are JSON values and whose location
    is a path, a URL or a string, the text of which [httpx] reads as a URL,
    the encoder returns one row for each star, and loading those rows
    returns the stars with the same title and date and with the URL built
    from the text of the location, in the same order. *)
Theorem star_rows_round_trip (bookmarks reloaded : list GitHubStar) :
  Forall2 reloads bookmarks reloaded →
  ∃ rows : list json,
    encode_stars bookmarks = Return rows
    ∧ length rows = length bookmarks
    ∧ load_stars (iterate (JArray rows)) = Return reloaded.
Proof.
  induction 1 as [|b b' bookmarks reloaded Hb _ IH].
  - by exists [].
  - destruct IH as (rows & Hrows & Hlen & Hload).
    destruct Hb as (t & d & s & Ht & Hd & Hs & Hvalid & ->).
    exists (JArray [t; JString s; d] :: rows).
    assert (Hrow : encode_star b = Return (JArray [t; JString s; d])).
    { unfold encode_star. rewrite Ht, Hd. simpl.
      destruct (location b) as [[s'|]| | |]; simpl in Hs; try done;
        by injection Hs as <-. }
    simpl in *. rewrite Hrow, Hrows. simpl.
    unfold load_star. simpl. rewrite Hvalid. simpl. rewrite Hload.
    split; [done|]. split; [by rewrite Hlen|done].
Qed.

(** X14.  A list that holds a star whose [date_starred] is a [datetime]
    cannot be written: the encoder hands the [datetime] back as it is, and
    [dumps] raises [ValueError] for the whole list, wherever the star is. *)
Theorem datetime_star_is_not_encodable (json_text : json → string)
    (bookmarks : list GitHubStar) (b : GitHubStar) (d : datetime) :
  b ∈ bookmarks →
  date_starred b = DatetimeObj d →
  GithubStarEncoder.default (date_starred b) = date_starred b
  ∧ encode_stars bookmarks = Raise ValueError
  ∧ dumps json_text bookmarks = Raise ValueError.
Proof.
  intros Hin Hd.
  assert (Hrows : encode_stars bookmarks = Raise ValueError).
  { induction bookmarks as [|b0 bookmarks IH]; [by apply elem_of_nil in Hin|].
    simpl. apply elem_of_cons in Hin as [<-|Hin].
    - by rewrite (encode_star_datetime b d Hd).
    - rewrite (IH Hin).
      by destruct (encode_star_returns_or_value_error b0) as [[row ->]| ->]. }
  split; [by rewrite Hd|]. split; [done|].
  unfold dumps. by rewrite Hrows.
Qed.

(** X15.  Stars that are loaded never hold a path: when the rows load, there
    is one star for each row, every row had three items of which the second
    is a string, and the star of a row has the first and the third item as
    its title and date and the URL made of the second as its location. *)
Theorem loaded_locations_are_URLs (rows : list json) (bookmarks : list GitHubStar) :
  load_stars rows = Return bookmarks →
  Forall2
    (λ row b,
      ∃ (t d : json) (s : string),
        iterate row = [t; JString s; d]
        ∧ b = mk_GitHubStar (FromJson t) (URLObj s) (FromJson d))
    rows bookmarks.
Proof.
  revert bookmarks.
  induction rows as [|row rows IH]; intros bookmarks Hload; simpl in Hload.
  - injection Hload as <-. constructor.
  - destruct (load_star row) as [b| |] eqn:Hrow; simpl in Hload; [|done..].
    destruct (load_stars rows) as [bs| |]; simpl in Hload; [|done..].
    injection Hload as <-. constructor; [|by apply IH].
    unfold load_star in Hrow.
    destruct (iterate row) as [|t [|l [|d [|? ?]]]]; try done.
    destruct l as [s|]; simpl in Hrow; [|done].
    destruct (url_valid s); simpl in Hrow; [|done].
    injection Hrow as <-. by exists t, d, s.
Qed.
End StoreRows.

Section StoreRowsExamples.
#[local] Existing Instance plain_urls.

Lemma star_rows_round_trip_witness :
  ∃ rows : list json,
    encode_stars
      [mk_GitHubStar (FromJson (JString "foo/bar"))
         (URLObj "https://raw.githubusercontent.com/foo/bar/main/README.md")
         (FromJson (JString "2023-01-01 00:00:00"));
       mk_GitHubStar (FromJson (JString "notes"))
         (PathObj ["/"; "home"; "me"; "notes.md"])
         (FromJson (JString "2023-01-02 00:00:00"))]
    = Return rows
    ∧ length rows = 2%nat
    ∧ load_stars (iterate (JArray rows))
      = Return
          [mk_GitHubStar (FromJson (JString "foo/bar"))
             (URLObj "https://raw.githubusercontent.com/foo/bar/main/README.md")
             (FromJson (JString "2023-01-01 00:00:00"));
           mk_GitHubStar (FromJson (JString "notes"))
             (URLObj "/home/me/notes.md")
             (FromJson (JString "2023-01-02 00:00:00"))].
Proof.
  apply (star_rows_round_trip
    [mk_GitHubStar (FromJson (JString "foo/bar"))
       (URLObj "https://raw.githubusercontent.com/foo/bar/main/README.md")
       (FromJson (JString "2023-01-01 00:00:00"));
     mk_GitHubStar (FromJson (JString "notes"))
       (PathObj ["/"; "home"; "me"; "notes.md"])
       (FromJson (JString "2023-01-02 00:00:00"))]).
  repeat constructor; eexists _, _, _; repeat split; reflexivity.
Defined.

Lemma datetime_star_is_not_encodable_witness :
  dumps (λ _, "[]")
    [mk_GitHubStar (FromJson (JString "notes"))
       (PathObj ["/"; "home"; "me"; "notes.md"])
       (FromJson (JString "2023-01-02 00:00:00"));
     mk_GitHubStar (FromJson (JString "foo/bar"))
       (URLObj "https://raw.githubusercontent.com/foo/bar/main/README.md")
       (DatetimeObj (mk_datetime 2023 1 1 0 0 0))]
  = Raise ValueError.
Proof.
  apply (datetime_star_is_not_encodable (λ _, "[]") _
    (mk_GitHubStar (FromJson (JString "foo/bar"))
       (URLObj "https://raw.githubusercontent.com/foo/bar/main/README.md")
       (DatetimeObj (mk_datetime 2023 1 1 0 0 0)))
    (mk_datetime 2023 1 1 0 0 0)).
  - set_solver.
  - reflexivity.
Defined.

Lemma loaded_locations_are_URLs_witness :
  Forall2
    (λ row b,
      ∃ (t d : json) (s : string),
        iterate row = [t; JString s; d]
        ∧ b = mk_GitHubStar (FromJson t) (URLObj s) (FromJson d))
    [JArray [JString "notes"; JString "/home/me/notes.md";
             JString "2023-01-02 00:00:00"]]
    [mk_GitHubStar (FromJson (JString "notes")) (URLObj "/home/me/notes.md")
       (FromJson (JString "2023-01-02 00:00:00"))].
Proof.
  apply (loaded_locations_are_URLs
    [JArray [JString "notes"; JString "/home/me/notes.md";
             JString "2023-01-02 00:00:00"]]).
  reflexivity.
Defined.

(** A location that [httpx] does not read as a URL is written but does not
    load. *)
Example refused_location_does_not_load :
  encode_stars
    [mk_GitHubStar (FromJson (JString "notes"))
       (PathObj ["/"; "home"; "me"; String "010" "notes.md"])
       (FromJson (JString "2023-01-02 00:00:00"))]
  = Return [JArray [JString "notes";
                    JString ("/home/me/" +:+ String "010" "notes.md");
                    JString "2023-01-02 00:00:00"]]
  ∧ load_stars
      [JArray [JString "notes";
               JString ("/home/me/" +:+ String "010" "notes.md");
               JString "2023-01-02 00:00:00"]]
    = Raise InvalidURL.
Proof. split; reflexivity. Qed.
End StoreRowsExamples.
